(** * KalshiTradingApplication: the order registry and the odds calculator

    A shallow embedding of [Backend/API/main.py] (the order endpoints working
    on the process-wide [STATE]) and of
    [Backend/TradingAndQuatifying/CommonStatCalculations.py] (the class
    [StatCalculations]), with the properties proved about them.

    Conventions of the embedding:
    - a Python [float] is an IEEE 754 binary64 number: Rocq's primitive
      [float], with the same rounding on every operation;
    - a raised exception is a value of [exn]; a handler or a method returns
      a [result] together with the state it leaves behind;
    - the dictionary [STATE["orders"]] and the attribute dictionary of an
      instance are finite maps with string keys. *)

From Stdlib Require Import ZArith Floats.
From stdpp Require Import gmap strings list fin_maps.

Set Default Proof Using "Type".
#[local] Set Warnings "-inexact-float".

(** ** Exceptions and results *)

(** The three exceptions the modelled code can raise: [HTTPException] from
    the handlers, [AttributeError] from reading an attribute an instance does
    not have, and [ZeroDivisionError] from a float division by zero. *)
Inductive exn : Type :=
  | HTTPException (status_code : Z) (detail : string)
  | AttributeError (name : string)
  | ZeroDivisionError.

Inductive result (A : Type) : Type :=
  | Return (a : A)
  | Raise (e : exn).
Arguments Return {A} a.
Arguments Raise {A} e.

(** ** Python floats *)

Module PyFloat.

(** [a / b] on floats: CPython raises when the divisor compares equal to
    zero (of either sign) and otherwise performs the IEEE division. *)
Definition truediv (a b : float) : result float :=
  if PrimFloat.eqb b 0%float then Raise ZeroDivisionError
  else Return (PrimFloat.div a b).

(** The builtin [max(a, b)] on two arguments: the first one is kept unless
    the second compares strictly greater. *)
Definition max (a b : float) : float :=
  if PrimFloat.ltb a b then b else a.

End PyFloat.

(** ** The models of main.py *)

Inductive Side : Type := BUY | SELL.
Inductive OrderType : Type := MARKET | LIMIT.
Inductive TimeInForce : Type := DAY | GTC.

#[global] Instance OrderType_eq_dec : EqDecision OrderType.
Proof. solve_decision. Defined.

(** The fields of [OrderRequest] carry the prefix [req_]: [Order] has
    fields of the same names. Pydantic has checked [qty > 0] and
    [limit_price > 0] before a handler sees the request. *)
Record OrderRequest : Type := mkOrderRequest {
  req_symbol : string;
  req_side : Side;
  req_qty : float;
  req_order_type : OrderType;
  req_limit_price : option float;
  req_tif : TimeInForce;
  req_client_order_id : option string
}.

(** [datetime] values are kept abstract as a count of microseconds. *)
Record Order : Type := mkOrder {
  id : string;
  symbol : string;
  side : Side;
  qty : float;
  order_type : OrderType;
  limit_price : option float;
  tif : TimeInForce;
  status : string;
  created_at : Z;
  avg_fill_price : option float;
  filled_qty : float
}.

(** What the handlers take from outside the program: the string
    [str(uuid.uuid4())] would produce and the reading of
    [datetime.utcnow()] at the call. *)
Record Env : Type := mkEnv {
  uuid4 : string;
  utcnow : Z
}.

(** Truth value of an [Optional[str]]: [None] and the empty string are
    false. *)
Definition truthy (s : option string) : bool :=
  match s with
  | Some (String _ _) => true
  | _ => false
  end.

(** [x or y] for an [Optional[str]] [x] and a [str] [y]. *)
Definition py_or (x : option string) (y : string) : string :=
  match x with
  | Some (String a s) => String a s
  | _ => y
  end.

(** [d.values()] of a dictionary, as a list. Python iterates in insertion
    order, the map in the order of its keys; the handlers below only ask
    which values there are. *)
Definition values {V : Type} (d : gmap string V) : list V :=
  (map_to_list d).*2.

Module Registry.

(** A handler runs on [STATE["orders"]] and leaves a result and the
    dictionary as it is afterwards. *)
Definition handler (A : Type) : Type :=
  gmap string Order → result A * gmap string Order.

Definition open_statuses : gset string :=
  {[ "NEW"; "PARTIALLY_FILLED" ]}.

Definition get_open_orders : handler (list Order) := λ orders,
  (Return (filter (λ o, status o ∈ open_statuses) (values orders)), orders).

(** The loop of [place_order] over [STATE["orders"].values()]: the first
    order whose [id] equals a truthy [client_order_id]. *)
Fixpoint scan (client_order_id : option string) (vs : list Order)
  : option Order :=
  match vs with
  | [] => None
  | o :: vs' =>
      if truthy client_order_id
         && bool_decide (Some (id o) = client_order_id)
      then Some o
      else scan client_order_id vs'
  end.

Section WithUpper.

(** [str.upper] is the interpreter's; the handlers are parametric in
    it. *)
Variable str_upper : string → string.

Definition place_order (req : OrderRequest) (env : Env) : handler Order :=
  λ orders,
  if bool_decide (req_order_type req = LIMIT)
     && bool_decide (req_limit_price req = None :> option float)
  then (Raise (HTTPException 400 "limit_price required for LIMIT orders"),
        orders)
  else
    match scan (req_client_order_id req) (values orders) with
    | Some o => (Return o, orders)
    | None =>
        let order_id := py_or (req_client_order_id req) (uuid4 env) in
        let order :=
          {| id := order_id;
             symbol := str_upper (req_symbol req);
             side := req_side req;
             qty := req_qty req;
             order_type := req_order_type req;
             limit_price := req_limit_price req;
             tif := req_tif req;
             status := "NEW";
             created_at := utcnow env;
             avg_fill_price := None;
             filled_qty := 0%float |} in
        (Return order, <[id order := order]> orders)
    end.

End WithUpper.

(** The request gets past the check at the head of [place_order]. *)
Definition passes_validation (req : OrderRequest) : Prop :=
  ¬ (req_order_type req = LIMIT ∧ req_limit_price req = None).

(** [STATE["orders"].get(order_id)] is [None] or an [Order]; an [Order]
    is always true (the model class defines neither [__bool__] nor
    [__len__]), so [not order] holds for [None] alone. *)
Definition get_order (order_id : string) : handler Order := λ orders,
  match orders !! order_id with
  | None => (Raise (HTTPException 404 "Order not found"), orders)
  | Some order => (Return order, orders)
  end.

End Registry.

(** ** The model of CommonStatCalculations.py *)

Module StatCalculations.

(** A method runs on the attribute dictionary of [self]. Inside the class
    body a name [__x] is the attribute [_StatCalculations__x]. *)
Definition method (A : Type) : Type :=
  gmap string float → result A * gmap string float.

#[global] Instance method_ret : MRet method := λ A a self, (Return a, self).
#[global] Instance method_bind : MBind method := λ A B k m self,
  match m self with
  | (Return a, self') => k a self'
  | (Raise e, self') => (Raise e, self')
  end.

(** A pure computation that may raise, run inside a method. *)
Definition lift {A : Type} (r : result A) : method A := λ self, (r, self).

(** [self.name]: the class body defines methods only, none under a
    mangled name, and no [__getattr__], so the lookup ends in the
    attribute dictionary of the instance. *)
Definition getattr (name : string) : method float := λ self,
  match self !! name with
  | Some v => (Return v, self)
  | None => (Raise (AttributeError name), self)
  end.

Definition setattr (name : string) (v : float) : method unit := λ self,
  (Return tt, <[name := v]> self).

Definition currentOdds_ : string := "_StatCalculations__currentOdds".
Definition expectedValue_ : string := "_StatCalculations__expectedValue".
Definition americanOdds_ : string := "_StatCalculations__americanOdds".
Definition optimalBetSize_ : string := "_StatCalculations__optimalBetSize".
Definition expected_value_ : string := "_StatCalculations__expected_value".

Definition __init__ (currentOdds : float) : method unit :=
  setattr currentOdds_ currentOdds;;
  _ ← getattr expectedValue_;
  _ ← getattr americanOdds_;
  _ ← getattr optimalBetSize_;
  mret tt.

(** [StatCalculations(currentOdds)]: a new object without attributes is
    handed to [__init__]; the object is the value of the call when
    [__init__] returns. *)
Definition new (currentOdds : float) : result (gmap string float) :=
  match __init__ currentOdds ∅ with
  | (Return _, self) => Return self
  | (Raise e, _) => Raise e
  end.

Definition implied_probability_to_american (currentOdds : float)
  : method float :=
  if (currentOdds <? 0.5)%float then
    decimalOdds ← lift (PyFloat.truediv 100 currentOdds);
    let americanOdds := (decimalOdds - 100)%float in
    setattr americanOdds_ americanOdds;;
    mret americanOdds
  else
    americanOdds ←
      lift (PyFloat.truediv (- (100 * currentOdds)) (1 - currentOdds));
    setattr americanOdds_ americanOdds;;
    mret americanOdds.

Definition american_to_decimal (americanOdds : float) : method float :=
  if (0 <? americanOdds)%float then
    q ← lift (PyFloat.truediv americanOdds 100);
    mret (1 + q)%float
  else
    q ← lift (PyFloat.truediv 100 (abs americanOdds));
    mret (1 + q)%float.

Definition american_to_net (american_odds : float) : method float :=
  d ← american_to_decimal american_odds;
  mret (d - 1)%float.

Definition expected_value (prob odds stake : float) : method float :=
  b ← american_to_net odds;
  let ev := (prob * b * stake - (1 - prob) * stake)%float in
  setattr expected_value_ ev;;
  mret ev.

Definition kelly_criterion : method float :=
  probOfWinning ← getattr currentOdds_;
  let probOfLoss := (1 - probOfWinning)%float in
  americanOdds ← getattr americanOdds_;
  netOdds ← american_to_net americanOdds;
  optimalBetSize ←
    lift (PyFloat.truediv (netOdds * probOfWinning - probOfLoss) netOdds);
  let optimalBetSize := PyFloat.max 0 optimalBetSize in
  setattr optimalBetSize_ optimalBetSize;;
  mret optimalBetSize.

(** A method call on an instance, and a sequence of calls made one after
    the other on the same instance (a raised exception ends the call, not
    the sequence: the caller may catch it and go on). *)
Inductive call : Type :=
  | ImpliedProbabilityToAmerican (currentOdds : float)
  | AmericanToDecimal (americanOdds : float)
  | AmericanToNet (american_odds : float)
  | ExpectedValue (prob odds stake : float)
  | KellyCriterion.

Definition run (c : call) : method float :=
  match c with
  | ImpliedProbabilityToAmerican p => implied_probability_to_american p
  | AmericanToDecimal a => american_to_decimal a
  | AmericanToNet a => american_to_net a
  | ExpectedValue p o s => expected_value p o s
  | KellyCriterion => kelly_criterion
  end.

Fixpoint run_all (cs : list call) (self : gmap string float)
  : gmap string float :=
  match cs with
  | [] => self
  | c :: cs' => run_all cs' (run c self).2
  end.

Definition is_conversion (c : call) : bool :=
  match c with
  | ImpliedProbabilityToAmerican _ => true
  | _ => false
  end.

(** Unfolds the steps of the method monad in a goal. *)
Ltac method_step :=
  unfold mbind, method_bind, mret, method_ret, lift, getattr, setattr.

End StatCalculations.

(** ** The rest of main.py: balance, positions, trade statistics

    The process-wide [STATE] in full, the three handlers that do not work
    on the orders, and the library calls of [get_trade_stats]. A [datetime]
    is from here on the count of microseconds since [datetime.min],
    0001-01-01T00:00:00. *)

Record AccountBalance : Type := mkAccountBalance {
  currency : string;
  cash : float;
  equity : float;
  buying_power : float;
  timestamp : Z
}.

(** The fields [symbol], [qty] and [side] of [Position] carry the prefix
    [pos_], those of [TradeStats] the prefix [stats_]. *)
Record Position : Type := mkPosition {
  pos_symbol : string;
  pos_qty : float;
  avg_price : float;
  pos_side : string
}.

Record TradeStats : Type := mkTradeStats {
  stats_symbol : string;
  stats_window : string;
  trades : Z;
  win_rate : float;
  pnl : float;
  avg_return : float;
  sharpe : option float;
  last_updated : Z
}.

Module datetime.

Definition us_per_hour : Z := 3600000000.
Definition us_per_day : Z := (24 * us_per_hour)%Z.

(** A [timedelta] holds at most this many days, in either direction. *)
Definition MAX_DELTA_DAYS : Z := 999999999.

(** [datetime.max] is the last microsecond of 9999-12-31, the day of
    ordinal 3652059: the values of [datetime] are the counts below
    [span]. *)
Definition span : Z := (3652059 * us_per_day)%Z.

Definition valid (t : Z) : Prop := (0 ≤ t < span)%Z.

(** [timedelta(days=n)] and [timedelta(hours=n)] for an [int] [n], as the
    exact count of microseconds; the constructor normalises to days,
    seconds and microseconds and raises [OverflowError] when the days are
    out of range ([None] here). *)
Definition timedelta (us : Z) : option Z :=
  if bool_decide (Z.abs (us `div` us_per_day) ≤ MAX_DELTA_DAYS)%Z
  then Some us else None.

(** [now - delta]: [OverflowError] ([None]) when the result is no
    [datetime]. *)
Definition sub (now delta : Z) : option Z :=
  if bool_decide (valid (now - delta)%Z) then Some (now - delta)%Z else None.

End datetime.

(** [s[-1]] when there is one, and [s[:-1]]. *)
Fixpoint last_char (s : string) : option Ascii.ascii :=
  match s with
  | EmptyString => None
  | String c EmptyString => Some c
  | String _ s' => last_char s'
  end.

Fixpoint but_last (s : string) : string :=
  match s with
  | EmptyString => EmptyString
  | String _ EmptyString => EmptyString
  | String c s' => String c (but_last s')
  end.

(** [s.endswith(c)] for a suffix [c] of one character. *)
Definition endswith (s : string) (c : Ascii.ascii) : bool :=
  bool_decide (last_char s = Some c).

Module Api.
Import Stdlib.Strings.Ascii.

(** The dictionary [STATE]. *)
Record State : Type := mkState {
  balance : AccountBalance;
  positions : list Position;
  orders : gmap string Order
}.

(** [STATE] as the module body builds it; [loaded] is the reading of the
    clock taken by the default of [AccountBalance.timestamp]. *)
Definition STATE (loaded : Z) : State :=
  {| balance := mkAccountBalance "USD" 100001 100000 200000 loaded;
     positions := [ mkPosition "AAPL" 50 190 "LONG";
                    mkPosition "TSLA" 10 240 "SHORT" ];
     orders := ∅ |}.

Definition handler (A : Type) : Type := State → result A * State.

Definition get_balance (env : Env) : handler AccountBalance := λ st,
  let b := mkAccountBalance (currency (balance st)) (cash (balance st))
             (equity (balance st)) (buying_power (balance st))
             (utcnow env) in
  (Return b, mkState b (positions st) (orders st)).

Definition get_open_positions : handler (list Position) := λ st,
  (Return (positions st), st).

(** A handler of the order endpoints, run on [STATE["orders"]]. *)
Definition on_orders {A : Type} (h : Registry.handler A) : handler A :=
  λ st, ((h (orders st)).1, mkState (balance st) (positions st)
                              (h (orders st)).2).

Section WithBuiltins.

(** [str.upper] and [int] on a string ([None] for [ValueError]) are the
    interpreter's. *)
Variable str_upper : string → string.
Variable py_int : string → option Z.

(** The body of the [try]: the value bound to [start], or [None] when any
    exception is raised in it. *)
Definition window_start (window : string) (now : Z) : option Z :=
  if endswith window "d"%char then
    _days ← py_int (but_last window);
    delta ← datetime.timedelta (_days * datetime.us_per_day)%Z;
    datetime.sub now delta
  else if endswith window "h"%char then
    _hrs ← py_int (but_last window);
    delta ← datetime.timedelta (_hrs * datetime.us_per_hour)%Z;
    datetime.sub now delta
  else None.

(** The windows for which the body of the [try] runs to its end: an
    [int] before a final [d] or [h], a number of days or hours that a
    [timedelta] holds, and a start that is a [datetime]. *)
Definition accepted (window : string) (now : Z) : Prop :=
  ∃ prefix n, py_int prefix = Some n
    ∧ ((window = prefix +:+ "d"
        ∧ (Z.abs n ≤ datetime.MAX_DELTA_DAYS)%Z
        ∧ datetime.valid (now - n * datetime.us_per_day))
       ∨ (window = prefix +:+ "h"
          ∧ (Z.abs (n `div` 24) ≤ datetime.MAX_DELTA_DAYS)%Z
          ∧ datetime.valid (now - n * datetime.us_per_hour))).

Definition get_trade_stats (symbol window : string) (env : Env)
  : result TradeStats :=
  let now := utcnow env in
  match window_start window now with
  | None => Raise (HTTPException 400 "window must be like '7d' or '12h'")
  | Some _ =>
      Return {| stats_symbol := str_upper symbol;
                stats_window := window;
                trades := 42;
                win_rate := 0.57;
                pnl := 1234.56;
                avg_return := 0.0123;
                sharpe := Some 1.4%float;
                last_updated := now |}
  end.

(** A request to the API and what it is answered with. *)
Inductive api_call : Type :=
  | GetBalance
  | GetOpenPositions
  | GetOpenOrders
  | PlaceOrder (req : OrderRequest)
  | GetOrder (order_id : string)
  | GetTradeStats (symbol window : string).

Inductive response : Type :=
  | Balance (b : AccountBalance)
  | Positions (ps : list Position)
  | Orders (os : list Order)
  | AnOrder (o : Order)
  | Stats (t : TradeStats).

Definition answer {A : Type} (f : A → response) (r : result A * State)
  : result response * State :=
  (match r.1 with Return a => Return (f a) | Raise e => Raise e end, r.2).

Definition handle (c : api_call) (env : Env) : handler response := λ st,
  match c with
  | GetBalance => answer Balance (get_balance env st)
  | GetOpenPositions => answer Positions (get_open_positions st)
  | GetOpenOrders => answer Orders (on_orders Registry.get_open_orders st)
  | PlaceOrder req =>
      answer AnOrder (on_orders (Registry.place_order str_upper req env) st)
  | GetOrder order_id =>
      answer AnOrder (on_orders (Registry.get_order order_id) st)
  | GetTradeStats symbol window =>
      answer Stats (get_trade_stats symbol window env, st)
  end.

(** The state after a sequence of requests, each with its environment. *)
Fixpoint serve (calls : list (api_call * Env)) (st : State) : State :=
  match calls with
  | [] => st
  | (c, env) :: calls' => serve calls' (handle c env st).2
  end.

End WithBuiltins.

(** Every order is stored under its own identifier. *)
Definition stored_under_id (os : gmap string Order) : Prop :=
  ∀ k o, os !! k = Some o → id o = k.

(** Every order is as [place_order] creates it: not filled at all. *)
Definition all_new (os : gmap string Order) : Prop :=
  ∀ k o, os !! k = Some o →
    status o = "NEW" ∧ filled_qty o = 0%float ∧ avg_fill_price o = None.

End Api.

(** ** Concrete inputs

    Requests, environments and instances at which the models are evaluated
    further down. *)

Module Samples.

(** [str.upper] restricted to the ASCII letters, enough for ticker
    symbols. *)
Definition upper_ascii (c : Ascii.ascii) : Ascii.ascii :=
  let n := Ascii.N_of_ascii c in
  if ((97 <=? n) && (n <=? 122))%N then Ascii.ascii_of_N (n - 32) else c.

Fixpoint ascii_upper (s : string) : string :=
  match s with
  | EmptyString => EmptyString
  | String c s' => String (upper_ascii c) (ascii_upper s')
  end.

Definition env1 : Env :=
  {| uuid4 := "6fa459ea-ee8a-4ca4-894e-db77e160355e"; utcnow := 1000 |}.
Definition env2 : Env :=
  {| uuid4 := "16fd2706-8baf-433b-82eb-8c7fada847da"; utcnow := 2000 |}.

(** A LIMIT order with its price and an idempotency key. *)
Definition req_limit : OrderRequest :=
  {| req_symbol := "aapl"; req_side := BUY; req_qty := 10%float;
     req_order_type := LIMIT; req_limit_price := Some 150%float;
     req_tif := DAY; req_client_order_id := Some "k-1" |}.

(** The same order without the price. *)
Definition req_limit_no_price : OrderRequest :=
  {| req_symbol := "aapl"; req_side := BUY; req_qty := 10%float;
     req_order_type := LIMIT; req_limit_price := None;
     req_tif := DAY; req_client_order_id := Some "k-1" |}.

(** A MARKET order whose idempotency key is the empty string. *)
Definition req_empty_key : OrderRequest :=
  {| req_symbol := "tsla"; req_side := SELL; req_qty := 1%float;
     req_order_type := MARKET; req_limit_price := None;
     req_tif := GTC; req_client_order_id := Some "" |}.

(** A MARKET order without idempotency key. *)
Definition req_no_key : OrderRequest :=
  {| req_symbol := "tsla"; req_side := SELL; req_qty := 1%float;
     req_order_type := MARKET; req_limit_price := None;
     req_tif := GTC; req_client_order_id := None |}.

Definition order_with (i st : string) : Order :=
  {| id := i; symbol := "AAPL"; side := BUY; qty := 5%float;
     order_type := MARKET; limit_price := None; tif := DAY; status := st;
     created_at := 0; avg_fill_price := None; filled_qty := 0%float |}.

(** A registry holding one order per status of the lifecycle. *)
Definition five_orders : gmap string Order :=
  <["a" := order_with "a" "NEW"]>
  (<["b" := order_with "b" "FILLED"]>
  (<["c" := order_with "c" "PARTIALLY_FILLED"]>
  (<["d" := order_with "d" "CANCELED"]>
  (<["e" := order_with "e" "REJECTED"]> ∅)))).

(** An instance as [__init__] leaves it after its first statement. *)
Definition half_built (currentOdds : float) : gmap string float :=
  {[ StatCalculations.currentOdds_ := currentOdds ]}.

(** An instance with current odds 0.6 and American odds -150. *)
Definition favourite : gmap string float :=
  <[ StatCalculations.americanOdds_ := (-150)%float ]> (half_built 0.6).

End Samples.

(** ** Concrete inputs for the rest of the API *)

Module ApiSamples.
Import Stdlib.Strings.Ascii.

(** [int] on ASCII text, after CPython: blanks around the numeral, a
    sign, decimal digits with single underscores between them, and at
    most 4300 digits (the default limit of the interpreter). *)
Definition is_space (c : ascii) : bool :=
  let n := N_of_ascii c in
  (((9 <=? n) && (n <=? 13)) || (n =? 32))%N.

Definition digit_value (c : ascii) : option Z :=
  let n := N_of_ascii c in
  if ((48 <=? n) && (n <=? 57))%N then Some (Z.of_N (n - 48)) else None.

Fixpoint lstrip (s : string) : string :=
  match s with
  | String c s' => if is_space c then lstrip s' else s
  | EmptyString => EmptyString
  end.

Fixpoint all_space (s : string) : bool :=
  match s with
  | String c s' => is_space c && all_space s'
  | EmptyString => true
  end.

(** The digits from the head of [s]: their value, their number and the
    text after them; [need_digit] holds at the start and after an
    underscore. *)
Fixpoint scan_digits (s : string) (need_digit : bool) (acc : Z) (n : nat)
  : option (Z * nat * string) :=
  match s with
  | EmptyString => if need_digit then None else Some (acc, n, s)
  | String c s' =>
      match digit_value c with
      | Some d => scan_digits s' false (10 * acc + d)%Z (S n)
      | None =>
          if need_digit then None
          else if bool_decide (c = "_"%char) then scan_digits s' true acc n
          else Some (acc, n, s)
      end
  end.

Definition ascii_int (s : string) : option Z :=
  let '(sign, digits) :=
    match lstrip s with
    | String "+" s' => (1%Z, s')
    | String "-" s' => ((-1)%Z, s')
    | s' => (1%Z, s')
    end in
  '(v, n, rest) ← scan_digits digits true 0%Z 0%nat;
  if all_space rest && bool_decide (n ≤ 4300)%nat
  then Some (sign * v)%Z else None.

(** The first instant of 2025-01-01, the day of ordinal 739252. *)
Definition new_year_2025 : Z := (739251 * datetime.us_per_day)%Z.

Definition env_2025 : Env :=
  {| uuid4 := "0b0e7f5c-6d53-4c0e-9d52-3f1c8a4f7a10";
     utcnow := new_year_2025 |}.

(** A second request under the key of [Samples.req_limit], with another
    symbol, side, quantity and type. *)
Definition req_same_key : OrderRequest :=
  mkOrderRequest "msft" SELL 3 MARKET None GTC (Some "k-1").

(** The registry after [Samples.req_limit] has been placed, and after
    [Samples.req_no_key] has been placed under the UUID of
    [Samples.env1]. *)
Definition one_order : gmap string Order :=
  (Registry.place_order Samples.ascii_upper Samples.req_limit Samples.env1
     ∅).2.

Definition keyless_order : gmap string Order :=
  (Registry.place_order Samples.ascii_upper Samples.req_no_key Samples.env1
     ∅).2.

(** A session: a balance query, two placements with the same key and
    different payloads, a placement without key, a statistics query. *)
Definition session : list (Api.api_call * Env) :=
  [ (Api.GetBalance, Samples.env1);
    (Api.PlaceOrder Samples.req_limit, Samples.env1);
    (Api.PlaceOrder req_same_key, Samples.env2);
    (Api.PlaceOrder Samples.req_no_key, env_2025);
    (Api.GetTradeStats "aapl" "30d", env_2025) ].

End ApiSamples.

(** * Properties of the order registry *)

Module RegistryFacts.
Import Registry Samples.

Lemma elem_of_values {V : Type} (d : gmap string V) (v : V) :
  v ∈ values d ↔ ∃ k, d !! k = Some v.
Proof.
  unfold values. rewrite list_elem_of_fmap. split.
  - intros [[k v'] [-> Hkv]]. exists k. by apply elem_of_map_to_list.
  - intros [k Hk]. exists (k, v). split; [done|].
    by apply elem_of_map_to_list.
Qed.

Lemma truthy_Some (c : option string) :
  truthy c = true ↔ ∃ s, c = Some s ∧ s ≠ "".
Proof.
  split.
  - destruct c as [[|a s]|]; simpl; try done. intros _. by eexists.
  - intros [s [-> Hs]]. by destruct s.
Qed.

Lemma py_or_truthy (c : string) (y : string) :
  c ≠ "" → py_or (Some c) y = c.
Proof. by destruct c. Qed.

Lemma py_or_falsy (c : option string) (y : string) :
  truthy c = false → py_or c y = y.
Proof. by destruct c as [[|a s]|]. Qed.

(** The loop finds nothing exactly when the key is falsy or no order
    carries it. *)
Lemma scan_None (c : option string) (vs : list Order) :
  scan c vs = None ↔ truthy c = false ∨ ∀ o, o ∈ vs → Some (id o) ≠ c.
Proof.
  induction vs as [|o vs IH]; simpl.
  - split; [intros _|done]. right. intros o Ho. by apply elem_of_nil in Ho.
  - destruct (truthy c) eqn:Ht; simpl.
    + case_bool_decide as Hid.
      * split; [done|]. intros [?|Hall]; [done|].
        exfalso. apply (Hall o); [left|done].
      * rewrite IH. split.
        -- intros [?|Hall]; [done|]. right. intros x Hx.
           apply elem_of_cons in Hx as [->|Hx]; auto.
        -- intros [?|Hall]; [done|]. right. intros x Hx.
           apply Hall. by right.
    + rewrite IH. split; intros _; by left.
Qed.

Lemma scan_Some (c : option string) (vs : list Order) (o : Order) :
  scan c vs = Some o → o ∈ vs ∧ Some (id o) = c ∧ truthy c = true.
Proof.
  induction vs as [|x vs IH]; simpl; [done|].
  destruct (truthy c) eqn:Ht; simpl.
  - case_bool_decide as Hid.
    + intros [= <-]. split; [left|done].
    + intros H. destruct (IH H) as (? & ? & ?). split; [by right|done].
  - intros H. destruct (IH H) as (? & ? & ?). done.
Qed.

(** When a single order carries the (truthy) key, the loop returns it. *)
Lemma scan_unique (c : option string) (vs : list Order) (o : Order) :
  truthy c = true → o ∈ vs → Some (id o) = c →
  (∀ x, x ∈ vs → Some (id x) = c → x = o) →
  scan c vs = Some o.
Proof.
  intros Ht Ho Hid Huniq.
  destruct (scan c vs) as [x|] eqn:Hs.
  - apply scan_Some in Hs as (Hx & Hxid & _). f_equal. by apply Huniq.
  - apply scan_None in Hs as [Hf|Hall]; [congruence|].
    by destruct (Hall o Ho).
Qed.

Section WithUpper.

Variable str_upper : string → string.

Lemma place_order_rejected req env orders :
  req_order_type req = LIMIT → req_limit_price req = None →
  place_order str_upper req env orders =
    (Raise (HTTPException 400 "limit_price required for LIMIT orders"),
     orders).
Proof.
  intros Ht Hp. unfold place_order.
  by rewrite !bool_decide_eq_true_2.
Qed.

Lemma place_order_passes req env orders :
  passes_validation req →
  place_order str_upper req env orders =
    match scan (req_client_order_id req) (values orders) with
    | Some o => (Return o, orders)
    | None =>
        let order :=
          mkOrder (py_or (req_client_order_id req) (uuid4 env))
            (str_upper (req_symbol req)) (req_side req) (req_qty req)
            (req_order_type req) (req_limit_price req) (req_tif req)
            "NEW" (utcnow env) None 0%float in
        (Return order, <[id order := order]> orders)
    end.
Proof.
  intros Hval. unfold place_order.
  case_bool_decide as Ht; [|done].
  case_bool_decide as Hp; [|done].
  by destruct Hval.
Qed.

(** After [order] is stored under its own [id], which no other stored
    order carries, the loop finds it. *)
Lemma scan_after_insert (c : string) (order : Order) orders :
  c ≠ "" → id order = c →
  (∀ o, o ∈ values orders → Some (id o) ≠ Some c) →
  scan (Some c) (values (<[c := order]> orders)) = Some order.
Proof.
  intros Hc Hid Hnone. apply scan_unique.
  - apply truthy_Some. by exists c.
  - apply elem_of_values. exists c. by rewrite lookup_insert_eq.
  - by rewrite Hid.
  - intros x Hx Hxid. apply elem_of_values in Hx as [k Hk].
    destruct (decide (c = k)) as [->|Hne].
    + rewrite lookup_insert_eq in Hk. congruence.
    + rewrite lookup_insert_ne in Hk by done.
      destruct (Hnone x); [|done]. apply elem_of_values. by exists k.
Qed.


(** C1 (amended): a request that passes validation and carries a
    non-empty [client_order_id], placed twice on the same registry,
    gets on the second call the very order of the first call (same
    identifier, same fields), and the second call leaves the registry
    as the first call left it: no order is created, nothing is changed,
    the size does not grow. *)
Theorem place_order_idempotent req c env env' orders :
  req_client_order_id req = Some c → c ≠ "" → passes_validation req →
  ∃ o orders1,
    place_order str_upper req env orders = (Return o, orders1)
    ∧ place_order str_upper req env' orders1 = (Return o, orders1)
    ∧ id o = c
    ∧ size (place_order str_upper req env' orders1).2 = size orders1.
Proof.
  intros Hc Hne Hval.
  rewrite (place_order_passes req env orders Hval).
  destruct (scan (req_client_order_id req) (values orders)) as [o|] eqn:Hs.
  - exists o, orders.
    rewrite (place_order_passes req env' orders Hval), Hs.
    apply scan_Some in Hs as (_ & Hid & _).
    split_and!; [done..| |done]. congruence.
  - apply scan_None in Hs as [Hf|Hall].
    { rewrite Hc in Hf. by destruct c. }
    cbn zeta. rewrite Hc, (py_or_truthy c _ Hne). cbn [id].
    eexists _, _. split; [reflexivity|].
    rewrite (place_order_passes req env' _ Hval), Hc.
    rewrite scan_after_insert; [done..|].
    intros o Ho. rewrite <- Hc. by apply Hall.
Qed.

(** C8 (amended): when [place_order] creates an order (the request
    passes validation and no stored order carries its non-empty key),
    the returned order has the upper-cased symbol, status NEW, filled
    quantity 0, no average fill price, and as identifier the
    [client_order_id] when that is a non-empty string and the generated
    UUID otherwise; it is stored under its identifier, and the other
    entries of the registry are as before. *)
Theorem place_order_creates req env orders :
  passes_validation req →
  (∀ c k o, req_client_order_id req = Some c → c ≠ "" →
            orders !! k = Some o → id o ≠ c) →
  ∃ o orders',
    place_order str_upper req env orders = (Return o, orders')
    ∧ symbol o = str_upper (req_symbol req)
    ∧ status o = "NEW"
    ∧ filled_qty o = 0%float
    ∧ avg_fill_price o = None
    ∧ id o = match req_client_order_id req with
             | Some c => if decide (c = "") then uuid4 env else c
             | None => uuid4 env
             end
    ∧ side o = req_side req ∧ qty o = req_qty req
    ∧ order_type o = req_order_type req
    ∧ limit_price o = req_limit_price req ∧ tif o = req_tif req
    ∧ orders' !! id o = Some o
    ∧ ∀ k, k ≠ id o → orders' !! k = orders !! k.
Proof.
  intros Hval Hfresh.
  rewrite (place_order_passes req env orders Hval).
  assert (scan (req_client_order_id req) (values orders) = None) as ->.
  { apply scan_None.
    destruct (truthy (req_client_order_id req)) eqn:Ht; [right|by left].
    apply truthy_Some in Ht as (c & Hc & Hne).
    intros o [k Hk]%elem_of_values. rewrite Hc.
    intros [= Hid]. by apply (Hfresh c k o). }
  eexists _, _. split; [reflexivity|]. cbn.
  repeat split.
  - by destruct (req_client_order_id req) as [[|a s]|].
  - by rewrite lookup_insert_eq.
  - intros k Hk. by rewrite lookup_insert_ne.
Qed.

(** C7: [place_order] raises the 400 [HTTPException] exactly for a
    LIMIT request without limit price; whenever it raises, the registry
    is left as it was; a LIMIT request with a limit price returns an
    order. *)
Theorem place_order_invalid_request req env orders :
  ((∃ d, (place_order str_upper req env orders).1
         = Raise (HTTPException 400 d))
   ↔ req_order_type req = LIMIT ∧ req_limit_price req = None)
  ∧ (∀ e, (place_order str_upper req env orders).1 = Raise e →
          e = HTTPException 400 "limit_price required for LIMIT orders"
          ∧ (place_order str_upper req env orders).2 = orders)
  ∧ (req_order_type req = LIMIT → is_Some (req_limit_price req) →
     ∃ o, (place_order str_upper req env orders).1 = Return o).
Proof.
  destruct (decide (req_order_type req = LIMIT
                    ∧ req_limit_price req = None)) as [[Ht Hp]|Hval].
  - rewrite (place_order_rejected req env orders Ht Hp). cbn.
    split_and!.
    + split; [done|]. intros _. by eexists.
    + by intros e [= <-].
    + intros _ [p Hsome]. congruence.
  - assert (∃ o, (place_order str_upper req env orders).1 = Return o)
      as [o Ho].
    { rewrite (place_order_passes req env orders Hval).
      destruct (scan _ _); by eexists. }
    rewrite Ho. split_and!.
    + split; [by intros [d ?]|done].
    + done.
    + intros _ _. by eexists.
Qed.

End WithUpper.

(** C9: [get_open_orders] returns exactly the stored orders whose status
    is NEW or PARTIALLY_FILLED, never one whose status is FILLED, CANCELED
    or REJECTED, and leaves the registry as it was. *)
Theorem get_open_orders_exact (orders : gmap string Order) :
  ∃ l, get_open_orders orders = (Return l, orders)
    ∧ (∀ o, o ∈ l ↔ (∃ k, orders !! k = Some o)
                      ∧ (status o = "NEW" ∨ status o = "PARTIALLY_FILLED"))
    ∧ (∀ o, o ∈ l → status o ≠ "FILLED" ∧ status o ≠ "CANCELED"
                    ∧ status o ≠ "REJECTED").
Proof.
  eexists. split; [reflexivity|].
  assert (∀ s : string, s ∈ open_statuses
                        ↔ s = "NEW" ∨ s = "PARTIALLY_FILLED") as Hopen.
  { intros s. unfold open_statuses. set_solver. }
  split.
  - intros o. rewrite list_elem_of_filter, elem_of_values, Hopen. tauto.
  - intros o [Hst _]%list_elem_of_filter.
    apply Hopen in Hst as [->| ->]; done.
Qed.

(** C10: [get_order] returns the order stored under the identifier when
    there is one and raises the 404 [HTTPException] when there is none;
    either way the registry is left as it was. *)
Theorem get_order_found_or_404 (order_id : string)
    (orders : gmap string Order) :
  (∀ o, orders !! order_id = Some o →
        get_order order_id orders = (Return o, orders))
  ∧ (orders !! order_id = None →
     get_order order_id orders
     = (Raise (HTTPException 404 "Order not found"), orders))
  ∧ (get_order order_id orders).2 = orders.
Proof.
  unfold get_order. destruct (orders !! order_id) as [o|]; cbn.
  - repeat split; [|done]. by intros ? [= <-].
  - done.
Qed.

(** The amended C1 at a LIMIT order with key [k-1], placed twice on an
    empty registry. *)
Lemma place_order_idempotent_witness :
  ∃ o orders1,
    place_order ascii_upper req_limit env1 ∅ = (Return o, orders1)
    ∧ place_order ascii_upper req_limit env2 orders1 = (Return o, orders1)
    ∧ id o = "k-1"
    ∧ size (place_order ascii_upper req_limit env2 orders1).2
      = size orders1.
Proof.
  apply (place_order_idempotent ascii_upper req_limit "k-1" env1 env2 ∅).
  - reflexivity.
  - discriminate.
  - intros [_ Hp]. discriminate Hp.
Defined.

(** C1 fails as stated. A request whose [client_order_id] is the empty
    string (not null) placed twice creates two orders with two generated
    identifiers, and the registry grows from one to two entries. A LIMIT
    request without limit price that carries a key is rejected on both
    calls, so that no order is returned. *)
Lemma place_order_twice_not_idempotent :
  let first := place_order ascii_upper req_empty_key env1 ∅ in
  let second := place_order ascii_upper req_empty_key env2 first.2 in
  let rejected := place_order ascii_upper req_limit_no_price env1 ∅ in
  req_client_order_id req_empty_key = Some ""
  ∧ (∃ o1 o2,
       first.1 = Return o1 ∧ second.1 = Return o2
       ∧ id o1 = uuid4 env1 ∧ id o2 = uuid4 env2 ∧ id o1 ≠ id o2)
  ∧ size first.2 = 1 ∧ size second.2 = 2
  ∧ req_client_order_id req_limit_no_price = Some "k-1"
  ∧ (∃ e, rejected = (Raise e, ∅)
          ∧ place_order ascii_upper req_limit_no_price env2 rejected.2
            = (Raise e, ∅)).
Proof.
  vm_compute. split_and!; try reflexivity.
  - eexists _, _. split_and!; try reflexivity. discriminate.
  - eexists. split; reflexivity.
Qed.

(** The amended C8 at a LIMIT order with key [k-1] on an empty
    registry. *)
Lemma place_order_creates_witness :
  ∃ o orders',
    place_order ascii_upper req_limit env1 ∅ = (Return o, orders')
    ∧ symbol o = ascii_upper (req_symbol req_limit)
    ∧ status o = "NEW"
    ∧ filled_qty o = 0%float
    ∧ avg_fill_price o = None
    ∧ id o = match req_client_order_id req_limit with
             | Some c => if decide (c = "") then uuid4 env1 else c
             | None => uuid4 env1
             end
    ∧ side o = req_side req_limit ∧ qty o = req_qty req_limit
    ∧ order_type o = req_order_type req_limit
    ∧ limit_price o = req_limit_price req_limit ∧ tif o = req_tif req_limit
    ∧ orders' !! id o = Some o
    ∧ ∀ k, k ≠ id o → orders' !! k = (∅ : gmap string Order) !! k.
Proof.
  apply (place_order_creates ascii_upper req_limit env1 ∅).
  - intros [_ Hp]. discriminate Hp.
  - intros c k o _ _ Hk. rewrite lookup_empty in Hk. discriminate Hk.
Defined.

(** C8 fails as stated. For a request that supplies the empty string as
    [client_order_id], the created order is not identified by the supplied
    key but by the generated UUID, and nothing is stored under the
    supplied key. *)
Lemma place_order_empty_key_gets_uuid :
  let created := place_order ascii_upper req_empty_key env1 ∅ in
  req_client_order_id req_empty_key = Some ""
  ∧ (∃ o, created.1 = Return o ∧ id o = uuid4 env1 ∧ id o ≠ ""
          ∧ created.2 !! uuid4 env1 = Some o)
  ∧ created.2 !! "" = None.
Proof.
  vm_compute. split_and!; try reflexivity.
  eexists. split_and!; try reflexivity. discriminate.
Qed.

(** [get_order] on the registry of five orders: a stored identifier and
    an unknown one. *)
Example get_order_five :
  (get_order "d" five_orders).1 = Return (order_with "d" "CANCELED")
  ∧ (get_order "z" five_orders).1
    = Raise (HTTPException 404 "Order not found").
Proof. vm_compute. done. Qed.

(** [place_order] on an empty registry: the LIMIT order with its price is
    stored with its symbol in upper case; without the price it is
    rejected. *)
Example place_order_limit :
  (place_order ascii_upper req_limit env1 ∅).1
  = Return (mkOrder "k-1" "AAPL" BUY 10 LIMIT (Some 150%float) DAY "NEW"
              1000 None 0)
  ∧ (place_order ascii_upper req_limit_no_price env1 ∅).1
    = Raise (HTTPException 400 "limit_price required for LIMIT orders").
Proof. vm_compute. done. Qed.

(** [get_open_orders] on the registry with one order per status: the two
    open ones come back. *)
Example get_open_orders_five :
  (get_open_orders five_orders).1
  = Return [order_with "c" "PARTIALLY_FILLED"; order_with "a" "NEW"].
Proof. vm_compute. reflexivity. Qed.

End RegistryFacts.

(** * Facts on binary64 arithmetic

    What the odds calculator needs of the primitive floats, proved from
    their specification in [SpecFloat]. *)

Module FloatFacts.

Local Open Scope Z_scope.

(** The bit length computed by [digits2_pos] is [Pos.size]. *)
Lemma digits2_pos_size (m : positive) : digits2_pos m = Pos.size m.
Proof. induction m; simpl; congruence. Qed.

Lemma digits2_pos_bound (m : positive) (k : Z) :
  0 ≤ k → Z.pos m < 2 ^ k → Z.pos (digits2_pos m) ≤ k.
Proof.
  intros Hk Hm. rewrite digits2_pos_size.
  destruct (Z.le_gt_cases (Z.pos (Pos.size m)) k) as [|Hgt]; [done|].
  pose proof (Pos.size_le m) as Hle.
  assert (2 ^ (k + 1) ≤ 2 ^ Z.pos (Pos.size m)) as Hpow
    by (apply Z.pow_le_mono_r; lia).
  rewrite Z.pow_add_r in Hpow by lia.
  assert (2 ^ Z.pos (Pos.size m) ≤ Z.pos m~0) as Hle'.
  { rewrite <- Pos2Z.inj_pow. apply Pos2Z.pos_le_pos. exact Hle. }
  lia.
Qed.

Lemma digits2_pos_iter_xO (m k : positive) :
  digits2_pos (Pos.iter xO m k) = (digits2_pos m + k)%positive.
Proof.
  induction k as [|k IH] using Pos.peano_ind.
  - simpl. lia.
  - rewrite Pos.iter_succ. simpl. rewrite IH. lia.
Qed.

(** A positive integer that needs no rounding is kept by
    [binary_round_aux]: the result is not a zero. *)
Lemma binary_round_aux_exact (sx : bool) (mz : positive) (ez : Z) :
  fexp prec emax (Z.pos (digits2_pos mz) + ez) ≤ ez →
  binary_round_aux prec emax sx (Z.pos mz) ez loc_Exact
  = if ez <=? emax - prec then S754_finite sx mz ez else S754_infinity sx.
Proof.
  intros Hfexp. unfold binary_round_aux, shr_fexp. simpl Zdigits2.
  assert (∀ n mrs e, n ≤ 0 → shr mrs e n = (mrs, e)) as Hshr.
  { intros [|n|n] mrs e Hn; simpl; [done|lia|done]. }
  rewrite Hshr by lia. simpl.
  rewrite Hshr by lia. reflexivity.
Qed.

Lemma binary_round_not_zero (sx : bool) (m : positive) (e : Z) :
  SpecFloat.emin prec emax ≤ e → Z.pos (digits2_pos m) ≤ prec →
  ∀ s, binary_round prec emax sx m e ≠ S754_zero s.
Proof.
  intros He Hm s. unfold binary_round, shl_align.
  set (e' := fexp prec emax (Z.pos (digits2_pos m) + e)).
  assert (e' ≤ e) as He' by (unfold e', fexp; lia).
  destruct (e' - e) as [|k|k] eqn:Hk; [|lia|].
  - rewrite binary_round_aux_exact by (fold e'; lia).
    by destruct (_ <=? _).
  - rewrite binary_round_aux_exact.
    + by destruct (_ <=? _).
    + rewrite digits2_pos_iter_xO.
      replace (Z.pos (digits2_pos m + k) + e')
        with (Z.pos (digits2_pos m) + e) by lia.
      fold e'. lia.
Qed.

Lemma digits2_pos_gt (m : positive) : Z.pos m < 2 ^ Z.pos (digits2_pos m).
Proof.
  rewrite digits2_pos_size, <- Pos2Z.inj_pow. apply Pos2Z.pos_lt_pos.
  apply Pos.size_gt.
Qed.

Lemma SFeqb_zero_false (x : spec_float) :
  (∀ s, x ≠ S754_zero s) → SFeqb x (S754_zero false) = false.
Proof.
  intros Hx. destruct x as [s|[]| |[] m e]; try done. by destruct (Hx s).
Qed.

(** A float above zero does not compare equal to zero. *)
Lemma positive_nonzero (p : float) :
  (0 <? p)%float = true → (p =? 0)%float = false.
Proof.
  rewrite FloatAxioms.ltb_spec, FloatAxioms.eqb_spec.
  change (Prim2SF 0) with (S754_zero false).
  by destruct (Prim2SF p) as [s|[]| |[] m e].
Qed.

(** For a float [p] with [0.5 <= p < 1] the difference [1 - p] is not
    zero: the subtraction is exact and leaves a positive mantissa. *)

(** For a float [p] with [0.5 <= p < 1] the difference [1 - p] is not
    zero: the subtraction is exact and leaves a positive mantissa. *)
Lemma one_minus_nonzero (p : float) :
  (p <? 1)%float = true → (p <? 0.5)%float = false →
  (1 - p =? 0)%float = false.
Proof.
  rewrite !FloatAxioms.ltb_spec, FloatAxioms.eqb_spec, FloatAxioms.sub_spec.
  change (Prim2SF 0) with (S754_zero false).
  change (Prim2SF 1) with (S754_finite false 4503599627370496 (-52)).
  change (Prim2SF 0.5) with (S754_finite false 4503599627370496 (-53)).
  pose proof (Prim2SF_valid p) as Hvalid.
  destruct (Prim2SF p) as [s|[]| |[] m e]; try done.
  unfold SFltb, SFcompare. intros Hlt1 Hge.
  assert (Z.pos m < 2 ^ 53 ∧ (e = -53 ∨ e = -52 ∧ Z.pos m < 2 ^ 52))
    as [Hm He].
  { destruct (Z.compare_spec e (-52)) as [->| |].
    - destruct (PosDef.Pos.compare_cont Eq m 4503599627370496) eqn:Hc.
      1,3: discriminate Hlt1.
      assert (Z.pos m < 4503599627370496) as Hlt
        by (apply Pos2Z.pos_lt_pos; exact Hc).
      clear Hc.
      split.
      + lia.
      + right. split; [reflexivity|]. lia.
    - destruct (Z.compare_spec e (-53)) as [->| |].
      + split; [|by left].
        simpl in Hvalid. unfold bounded, canonical_mantissa, fexp in Hvalid.
        apply andb_prop in Hvalid as [Hcan _].
        apply Z.eqb_eq in Hcan.
        pose proof (digits2_pos_gt m) as Hgt.
        assert (Z.pos (digits2_pos m) = 53) as Hd
          by (unfold prec, emax, SpecFloat.emin in *; lia).
        rewrite Hd in Hgt. exact Hgt.
      + discriminate Hge.
      + lia.
    - discriminate Hlt1. }
  clear Hlt1 Hge Hvalid.
  apply SFeqb_zero_false. intros s.
  unfold SF64sub, SFsub.
  assert (∀ d e0, 0 < d < 2 ^ 53 → -53 ≤ e0 →
            binary_normalize prec emax d e0 false ≠ S754_zero s) as Hnorm.
  { intros [|d|d] e0 Hd He0; [lia| |lia]. simpl.
    apply binary_round_not_zero.
    - unfold SpecFloat.emin, emax, prec. lia.
    - apply digits2_pos_bound; [done|]. unfold prec. lia. }
  destruct He as [->|[-> Hm']].
  - change (Z.min (-52) (-53)) with (-53). simpl shl_align.
    apply Hnorm; simpl; lia.
  - change (Z.min (-52) (-52)) with (-52). simpl shl_align.
    apply Hnorm; simpl; lia.
Qed.

(** The absolute value of a float that is not zero is not zero. *)
Lemma abs_nonzero (x : float) :
  (x =? 0)%float = false → (abs x =? 0)%float = false.
Proof.
  rewrite !FloatAxioms.eqb_spec, FloatAxioms.abs_spec.
  change (Prim2SF 0) with (S754_zero false).
  by destruct (Prim2SF x) as [s|[]| |[] m e].
Qed.

(** A float above zero is not below zero. *)
Lemma positive_not_negative (x : float) :
  (0 <? x)%float = true → (x <? 0)%float = false.
Proof.
  rewrite !FloatAxioms.ltb_spec.
  change (Prim2SF 0) with (S754_zero false).
  by destruct (Prim2SF x) as [s|[]| |[] m e].
Qed.

(** [max(0.0, x)] is [x] when [x] is above zero and [0.0] otherwise; it
    is never below zero. *)
Lemma max_zero_not_negative (x : float) :
  (PyFloat.max 0 x <? 0)%float = false.
Proof.
  unfold PyFloat.max. destruct (0 <? x)%float eqn:Hx.
  - by apply positive_not_negative.
  - reflexivity.
Qed.

End FloatFacts.

(** * Properties of the odds calculator *)

Module StatCalculationsFacts.
Import StatCalculations Samples.

(** C2: for every [currentOdds], [StatCalculations(currentOdds)] raises
    [AttributeError] at the read of [self.__expectedValue], after the one
    assignment to [self.__currentOdds]; the call never yields an
    instance. *)
Theorem constructor_raises (currentOdds : float) :
  new currentOdds = Raise (AttributeError "_StatCalculations__expectedValue")
  ∧ (__init__ currentOdds ∅).2 = half_built currentOdds
  ∧ ∀ self, new currentOdds ≠ Return self.
Proof.
  assert (__init__ currentOdds ∅
          = (Raise (AttributeError "_StatCalculations__expectedValue"),
             half_built currentOdds)) as Hinit by reflexivity.
  unfold new. rewrite Hinit. done.
Qed.

(** C3: [implied_probability_to_american] raises [ZeroDivisionError] at
    probability 0 (in the branch below 0.5, at [100 / currentOdds]) and at
    probability 1 (in the other branch, at the division by
    [1 - currentOdds]), and [american_to_decimal] raises it at American
    odds 0; the instance is left as it was. *)
Theorem degenerate_inputs_raise (self : gmap string float) :
  implied_probability_to_american 0 self = (Raise ZeroDivisionError, self)
  ∧ implied_probability_to_american 1 self = (Raise ZeroDivisionError, self)
  ∧ american_to_decimal 0 self = (Raise ZeroDivisionError, self)
  ∧ (0 <? 0.5)%float = true ∧ PyFloat.truediv 100 0 = Raise ZeroDivisionError
  ∧ (1 <? 0.5)%float = false ∧ (1 - 1)%float = 0%float
  ∧ (0 <? 0)%float = false ∧ abs 0 = 0%float.
Proof.
  unfold implied_probability_to_american, american_to_decimal.
  method_step. split_and!; reflexivity.
Qed.

Lemma truediv_cases (a b : float) :
  (PrimFloat.eqb b 0 = true ∧ PyFloat.truediv a b = Raise ZeroDivisionError)
  ∨ (PrimFloat.eqb b 0 = false ∧ PyFloat.truediv a b = Return (a / b)%float).
Proof. unfold PyFloat.truediv. destruct (PrimFloat.eqb b 0); auto. Qed.

Lemma truediv_nonzero (a b : float) :
  PrimFloat.eqb b 0 = false → PyFloat.truediv a b = Return (a / b)%float.
Proof. unfold PyFloat.truediv. by intros ->. Qed.

(** The two conversions from American odds read and write no attribute. *)
Lemma american_to_decimal_self (a : float) (self : gmap string float) :
  american_to_decimal a self = ((american_to_decimal a ∅).1, self).
Proof.
  unfold american_to_decimal. destruct (0 <? a)%float; method_step;
    by destruct (PyFloat.truediv _ _).
Qed.

Lemma american_to_net_self (a : float) (self : gmap string float) :
  american_to_net a self = ((american_to_net a ∅).1, self).
Proof.
  unfold american_to_net. method_step.
  rewrite (american_to_decimal_self a self), (american_to_decimal_self a ∅).
  by destruct (american_to_decimal a ∅).1.
Qed.

(** The net odds of American odds other than zero: the decimal odds,
    [1 + a/100] for positive [a] and [1 + 100/|a|] otherwise, minus 1. *)
Lemma american_to_net_value (a : float) (self : gmap string float) :
  (a =? 0)%float = false →
  american_to_net a self
  = (Return (if (0 <? a)%float then (1 + a / 100 - 1)%float
             else (1 + 100 / abs a - 1)%float), self).
Proof.
  intros Ha. unfold american_to_net, american_to_decimal.
  destruct (0 <? a)%float; method_step.
  - reflexivity.
  - by rewrite truediv_nonzero by by apply FloatFacts.abs_nonzero.
Qed.

(** No call other than the conversion from a probability creates the
    attribute [__americanOdds], and none removes [__currentOdds]. *)
Lemma run_keeps_absent (c : call) (self : gmap string float) :
  is_conversion c = false → self !! americanOdds_ = None →
  (run c self).2 !! americanOdds_ = None.
Proof.
  intros Hc Hnone. destruct c as [p|a|a|p o s|]; simpl in *; try done.
  - by rewrite american_to_decimal_self.
  - by rewrite american_to_net_self.
  - unfold expected_value. method_step. rewrite american_to_net_self.
    destruct (american_to_net o ∅).1; simpl; [|done].
    by rewrite lookup_insert_ne.
  - unfold kelly_criterion. method_step.
    destruct (self !! currentOdds_); [|done]. by rewrite Hnone.
Qed.

Lemma run_all_keeps_absent (cs : list call) (self : gmap string float) :
  Forall (λ c, is_conversion c = false) cs →
  self !! americanOdds_ = None →
  run_all cs self !! americanOdds_ = None.
Proof.
  intros Hcs. revert self.
  induction Hcs as [|c cs Hc _ IH]; intros self Hnone; simpl; [done|].
  apply IH. by apply run_keeps_absent.
Qed.

Lemma run_keeps_present (c : call) (self : gmap string float) :
  is_Some (self !! currentOdds_) → is_Some ((run c self).2 !! currentOdds_).
Proof.
  intros Hsome.
  assert (∀ k v, k ≠ currentOdds_ →
            is_Some (<[k := v]> self !! currentOdds_)) as Hins.
  { intros k v Hk. by rewrite lookup_insert_ne. }
  destruct c as [p|a|a|p o s|]; simpl.
  - unfold implied_probability_to_american.
    destruct (p <? 0.5)%float; method_step;
      destruct (PyFloat.truediv _ _); simpl; auto.
  - by rewrite american_to_decimal_self.
  - by rewrite american_to_net_self.
  - unfold expected_value. method_step. rewrite american_to_net_self.
    destruct (american_to_net o ∅).1; simpl; auto.
  - unfold kelly_criterion. method_step.
    destruct Hsome as [p Hp]. rewrite Hp.
    destruct (self !! americanOdds_) as [a|]; simpl; [|by rewrite Hp].
    rewrite american_to_net_self.
    destruct (american_to_net a ∅).1; simpl; [|by rewrite Hp].
    destruct (PyFloat.truediv _ _); simpl; [by apply Hins|by rewrite Hp].
Qed.

Lemma run_all_keeps_present (cs : list call) (self : gmap string float) :
  is_Some (self !! currentOdds_) →
  is_Some (run_all cs self !! currentOdds_).
Proof.
  revert self. induction cs as [|c cs IH]; intros self Hsome; simpl;
    [done|].
  apply IH. by apply run_keeps_present.
Qed.

(** C5: on an instance on which [implied_probability_to_american] has not
    been called, so that it has no attribute [__americanOdds], whatever
    other calls were made in between, [kelly_criterion] raises
    [AttributeError] and returns no value; the instance is left as it
    was, and when [__currentOdds] is set the missing attribute named is
    [__americanOdds]. *)
Theorem kelly_before_conversion (self0 : gmap string float)
    (cs : list call) :
  self0 !! americanOdds_ = None →
  Forall (λ c, is_conversion c = false) cs →
  ∃ name,
    kelly_criterion (run_all cs self0)
    = (Raise (AttributeError name), run_all cs self0)
    ∧ (is_Some (self0 !! currentOdds_) → name = americanOdds_).
Proof.
  intros Hnone Hcs.
  pose proof (run_all_keeps_absent cs self0 Hcs Hnone) as Habs.
  pose proof (run_all_keeps_present cs self0) as Hpres.
  unfold kelly_criterion. method_step.
  destruct (run_all cs self0 !! currentOdds_) as [p|].
  - rewrite Habs. by eexists.
  - eexists. split; [done|]. intros [? ?]%Hpres. done.
Qed.

(** C5 on the instance [__init__] leaves behind, after an expected-value
    computation and a first failed Kelly call. *)
Lemma kelly_before_conversion_witness :
  ∃ name,
    kelly_criterion
      (run_all [ExpectedValue 0.6 (-150) 1; KellyCriterion]
               (half_built 0.6))
    = (Raise (AttributeError name),
       run_all [ExpectedValue 0.6 (-150) 1; KellyCriterion]
               (half_built 0.6))
    ∧ (is_Some (half_built 0.6 !! currentOdds_) → name = americanOdds_).
Proof.
  apply (kelly_before_conversion (half_built 0.6)
           [ExpectedValue 0.6 (-150) 1; KellyCriterion]).
  - reflexivity.
  - repeat constructor.
Defined.

(** C6: for a probability [p] with [0 < p < 1] the method returns
    [100/p - 100] when [p < 0.5] and [-(100*p)/(1-p)] otherwise, and
    stores the returned value as [__americanOdds]; at 0.4 this is 150.0
    and at 0.6 it is -150.0. *)
Theorem implied_probability_to_american_value :
  (∀ (self : gmap string float) (p : float),
     (0 <? p)%float = true → (p <? 1)%float = true →
     let odds := if (p <? 0.5)%float then (100 / p - 100)%float
                 else ((- (100 * p)) / (1 - p))%float in
     implied_probability_to_american p self
     = (Return odds, <[americanOdds_ := odds]> self))
  ∧ (∀ self : gmap string float,
       implied_probability_to_american 0.4 self
       = (Return 150%float, <[americanOdds_ := 150%float]> self)
       ∧ implied_probability_to_american 0.6 self
         = (Return (-150)%float, <[americanOdds_ := (-150)%float]> self)).
Proof.
  split; [|done].
  intros self p Hpos Hlt1 odds. subst odds.
  unfold implied_probability_to_american.
  destruct (p <? 0.5)%float eqn:Hhalf; method_step.
  - by rewrite truediv_nonzero by by apply FloatFacts.positive_nonzero.
  - by rewrite truediv_nonzero by by apply FloatFacts.one_minus_nonzero.
Qed.

(** The general part of C6 at probability 0.25, on the instance
    [__init__] leaves behind: the odds are 300.0. *)
Lemma implied_probability_to_american_value_witness :
  implied_probability_to_american 0.25 (half_built 0.25)
  = (Return 300%float, <[americanOdds_ := 300%float]> (half_built 0.25)).
Proof.
  apply (proj1 implied_probability_to_american_value
           (half_built 0.25) 0.25%float); reflexivity.
Defined.

(** C4: with [__currentOdds] holding [p] and [__americanOdds] holding
    [a], and [n] the net odds [american_to_net(a)], different from zero,
    [kelly_criterion] returns [max(0.0, (n*p - (1-p))/n)], which is never
    negative, and stores it as [__optimalBetSize]; with 0.6 and -150
    stored it returns 0.0. *)
Theorem kelly_criterion_value :
  (∀ (self : gmap string float) (p a n : float),
     self !! currentOdds_ = Some p → self !! americanOdds_ = Some a →
     american_to_net a self = (Return n, self) →
     (n =? 0)%float = false →
     let bet := PyFloat.max 0 ((n * p - (1 - p)) / n) in
     kelly_criterion self = (Return bet, <[optimalBetSize_ := bet]> self)
     ∧ (bet <? 0)%float = false)
  ∧ (∀ self : gmap string float,
       self !! currentOdds_ = Some 0.6%float →
       self !! americanOdds_ = Some (-150)%float →
       kelly_criterion self
       = (Return 0%float, <[optimalBetSize_ := 0%float]> self)).
Proof.
  split.
  - intros self p a n Hp Ha Hnet Hn bet. subst bet.
    split; [|apply FloatFacts.max_zero_not_negative].
    unfold kelly_criterion. method_step.
    by rewrite Hp, Ha, Hnet, truediv_nonzero.
  - intros self Hp Ha.
    unfold kelly_criterion. method_step.
    rewrite Hp, Ha, american_to_net_self. reflexivity.
Qed.

(** The general part of C4 on the instance with odds 0.6 and -150, whose
    net odds are [1 + 100/150 - 1]. *)
Lemma kelly_criterion_value_witness :
  let n := (1 + 100 / abs (-150) - 1)%float in
  let bet := PyFloat.max 0 ((n * 0.6 - (1 - 0.6)) / n) in
  kelly_criterion favourite
  = (Return bet, <[optimalBetSize_ := bet]> favourite)
  ∧ (bet <? 0)%float = false.
Proof.
  apply (proj1 kelly_criterion_value favourite 0.6%float (-150)%float
           (1 + 100 / abs (-150) - 1)%float).
  - reflexivity.
  - reflexivity.
  - apply american_to_net_value. reflexivity.
  - reflexivity.
Defined.

(** The Kelly stake of the instance with odds 0.6 and -150: the quotient
    is a small negative number (the product 0.6 * 0.666... rounds below
    0.4), which the floor turns into 0.0. *)
Example kelly_favourite :
  (kelly_criterion favourite).1 = Return 0%float
  ∧ let n := (1 + 100 / abs (-150) - 1)%float in
    ((n * 0.6 - (1 - 0.6)) / n <? 0)%float = true.
Proof. vm_compute. done. Qed.

End StatCalculationsFacts.


(** * Properties of the rest of the API *)

Module ApiFacts.
Import Stdlib.Strings.Ascii.
Import Registry Api Samples ApiSamples.

(** ** The suffix test of [get_trade_stats] *)

Lemma last_char_app (t : string) (c : ascii) :
  last_char (t +:+ String c "") = Some c.
Proof.
  induction t as [|a t IH]; simpl; [done|].
  rewrite IH. by destruct t.
Qed.

Lemma but_last_app (t : string) (c : ascii) :
  but_last (t +:+ String c "") = t.
Proof.
  induction t as [|a t IH]; simpl; [done|].
  rewrite IH. by destruct t.
Qed.

Lemma last_char_Some (s : string) (c : ascii) :
  last_char s = Some c → s = but_last s +:+ String c "".
Proof.
  induction s as [|a s IH]; simpl; [done|].
  destruct s as [|b s]; [by intros [= ->]|].
  intros Hc.
  change (String a (String b s)
          = String a (but_last (String b s) +:+ String c "")).
  f_equal. by apply IH.
Qed.

Lemma endswith_true (s : string) (c : ascii) :
  endswith s c = true ↔ s = but_last s +:+ String c "".
Proof.
  unfold endswith. rewrite bool_decide_eq_true. split.
  - apply last_char_Some.
  - intros ->. apply last_char_app.
Qed.

Lemma endswith_app (t : string) (c d : ascii) :
  endswith (t +:+ String c "") d = bool_decide (c = d).
Proof.
  unfold endswith. rewrite last_char_app.
  apply bool_decide_ext. split; congruence.
Qed.

(** ** [timedelta] and the subtraction from [now] *)

Lemma timedelta_Some (us delta : Z) :
  datetime.timedelta us = Some delta ↔
  delta = us
  ∧ (Z.abs (us `div` datetime.us_per_day) ≤ datetime.MAX_DELTA_DAYS)%Z.
Proof.
  unfold datetime.timedelta. case_bool_decide as Hdays.
  - split; [by intros [= <-]|by intros [-> _]].
  - split; [done|]. by intros [_ ?].
Qed.

Lemma sub_Some (now delta start : Z) :
  datetime.sub now delta = Some start ↔
  start = (now - delta)%Z ∧ datetime.valid (now - delta).
Proof.
  unfold datetime.sub. case_bool_decide as Hvalid.
  - split; [by intros [= <-]|by intros [-> _]].
  - split; [done|]. by intros [_ ?].
Qed.

Lemma days_of_days (n : Z) :
  ((n * datetime.us_per_day) `div` datetime.us_per_day = n)%Z.
Proof. by apply Z.div_mul. Qed.

Lemma days_of_hours (n : Z) :
  ((n * datetime.us_per_hour) `div` datetime.us_per_day = n `div` 24)%Z.
Proof.
  unfold datetime.us_per_day. by apply Z.div_mul_cancel_r.
Qed.

Section WithBuiltins.

Variable str_upper : string → string.
Variable py_int : string → option Z.

Lemma window_start_accepted (window : string) (now : Z) :
  is_Some (window_start py_int window now) ↔ accepted py_int window now.
Proof.
  unfold window_start, accepted. split.
  - intros [start Hstart].
    destruct (endswith window "d") eqn:Hd.
    + apply endswith_true in Hd.
      destruct (py_int (but_last window)) as [n|] eqn:Hn; [|done].
      simpl in Hstart.
      destruct (datetime.timedelta _) as [delta|] eqn:Hdelta; [|done].
      apply timedelta_Some in Hdelta as [-> Hdays].
      apply sub_Some in Hstart as [_ Hvalid].
      rewrite days_of_days in Hdays.
      exists (but_last window), n. split; [done|]. by left.
    + destruct (endswith window "h") eqn:Hh; [|done].
      apply endswith_true in Hh.
      destruct (py_int (but_last window)) as [n|] eqn:Hn; [|done].
      simpl in Hstart.
      destruct (datetime.timedelta _) as [delta|] eqn:Hdelta; [|done].
      apply timedelta_Some in Hdelta as [-> Hdays].
      apply sub_Some in Hstart as [_ Hvalid].
      rewrite days_of_hours in Hdays.
      exists (but_last window), n. split; [done|]. by right.
  - intros (prefix & n & Hn & [(-> & Hdays & Hvalid)|(-> & Hdays & Hvalid)]).
    + rewrite endswith_app, bool_decide_eq_true_2 by done.
      rewrite but_last_app, Hn. simpl.
      rewrite (proj2 (timedelta_Some _ _) (conj eq_refl
                 (eq_ind_r (λ d, (Z.abs d ≤ _)%Z) Hdays (days_of_days n)))).
      simpl. rewrite (proj2 (sub_Some _ _ _) (conj eq_refl Hvalid)).
      by eexists.
    + rewrite !endswith_app.
      rewrite (bool_decide_eq_false_2 ("h"%char = "d"%char)) by done.
      rewrite bool_decide_eq_true_2 by done.
      rewrite but_last_app, Hn. simpl.
      rewrite (proj2 (timedelta_Some _ _) (conj eq_refl
                 (eq_ind_r (λ d, (Z.abs d ≤ _)%Z) Hdays (days_of_hours n)))).
      simpl. rewrite (proj2 (sub_Some _ _ _) (conj eq_refl Hvalid)).
      by eexists.
Qed.

(** X9. [get_trade_stats] answers a window of the form [<int>d] or [<int>h]
    whose start is a [datetime], with fixed numbers whatever the symbol and
    the window are; it answers every other window with the 400
    [HTTPException]. *)
Theorem get_trade_stats_accepts (symbol window : string) (env : Env) :
  (accepted py_int window (utcnow env) →
   get_trade_stats str_upper py_int symbol window env
   = Return (mkTradeStats (str_upper symbol) window 42 0.57 1234.56 0.0123
               (Some 1.4%float) (utcnow env)))
  ∧ (¬ accepted py_int window (utcnow env) →
     get_trade_stats str_upper py_int symbol window env
     = Raise (HTTPException 400 "window must be like '7d' or '12h'")).
Proof.
  unfold get_trade_stats. split; intros Hacc.
  - apply window_start_accepted in Hacc as [start ->]. done.
  - destruct (window_start py_int window (utcnow env)) as [start|] eqn:Hs;
      [|done].
    destruct Hacc. apply window_start_accepted. by eexists.
Qed.

Lemma window_start_days (prefix : string) (now : Z) :
  window_start py_int (prefix +:+ "d") now
  = n ← py_int prefix;
    delta ← datetime.timedelta (n * datetime.us_per_day)%Z;
    datetime.sub now delta.
Proof.
  unfold window_start.
  by rewrite endswith_app, bool_decide_eq_true_2, but_last_app.
Qed.

Lemma window_start_hours (prefix : string) (now : Z) :
  window_start py_int (prefix +:+ "h") now
  = n ← py_int prefix;
    delta ← datetime.timedelta (n * datetime.us_per_hour)%Z;
    datetime.sub now delta.
Proof.
  unfold window_start. rewrite !endswith_app.
  rewrite (bool_decide_eq_false_2 ("h"%char = "d"%char)) by done.
  by rewrite bool_decide_eq_true_2, but_last_app.
Qed.

Lemma get_trade_stats_returns (symbol window : string) (env : Env) :
  (∃ t, get_trade_stats str_upper py_int symbol window env = Return t)
  ↔ is_Some (window_start py_int window (utcnow env)).
Proof.
  unfold get_trade_stats.
  destruct (window_start py_int window (utcnow env)) as [start|].
  - split; by eexists.
  - split; [by intros [t ?]|by intros [? ?]].
Qed.

(** X10. A window of [n >= 0] days or hours is answered exactly when it does
    not start before [datetime.min]: a well-formed window that reaches
    further back than the clock reading is answered with 400, as the
    subtraction raises [OverflowError] inside the [try]. *)
Theorem get_trade_stats_window_reach (symbol prefix : string) (n : Z)
    (env : Env) :
  datetime.valid (utcnow env) → py_int prefix = Some n → (0 ≤ n)%Z →
  ((∃ t, get_trade_stats str_upper py_int symbol (prefix +:+ "d") env
         = Return t)
   ↔ (n * datetime.us_per_day ≤ utcnow env)%Z)
  ∧ ((∃ t, get_trade_stats str_upper py_int symbol (prefix +:+ "h") env
           = Return t)
     ↔ (n * datetime.us_per_hour ≤ utcnow env)%Z).
Proof.
  intros [Hlo Hhi] Hn Hpos.
  rewrite !get_trade_stats_returns, window_start_days, window_start_hours.
  rewrite Hn. simpl.
  unfold datetime.timedelta, datetime.sub, datetime.valid.
  rewrite days_of_days, days_of_hours.
  unfold datetime.span, datetime.MAX_DELTA_DAYS, datetime.us_per_day,
    datetime.us_per_hour in *.
  split.
  - case_bool_decide as Hdays; simpl.
    + case_bool_decide as Hvalid; split; try lia; try by eexists.
      by intros [? ?].
    + split; [by intros [? ?]|]. lia.
  - assert (0 ≤ n `div` 24 ≤ n)%Z as Hdiv.
    { split; [by apply Z.div_pos|]. apply Z.div_le_upper_bound; lia. }
    case_bool_decide as Hdays; simpl.
    + case_bool_decide as Hvalid; split; try lia; try by eexists.
      by intros [? ?].
    + split; [by intros [? ?]|]. lia.
Qed.

End WithBuiltins.

(** A window of 30 days on 2025-01-01. *)
Lemma get_trade_stats_window_reach_witness :
  ((∃ t, get_trade_stats ascii_upper ascii_int "aapl" ("30" +:+ "d") env_2025
         = Return t)
   ↔ (30 * datetime.us_per_day ≤ utcnow env_2025)%Z)
  ∧ ((∃ t, get_trade_stats ascii_upper ascii_int "aapl" ("30" +:+ "h")
             env_2025 = Return t)
     ↔ (30 * datetime.us_per_hour ≤ utcnow env_2025)%Z).
Proof.
  apply (get_trade_stats_window_reach ascii_upper ascii_int "aapl" "30" 30
           env_2025).
  - by vm_compute.
  - reflexivity.
  - done.
Defined.

(** On 2025-01-01 a window of 739251 days starts at [datetime.min] and is
    answered; one more day is not. *)
Example get_trade_stats_2025 :
  get_trade_stats ascii_upper ascii_int "aapl" "739251d" env_2025
  = Return (mkTradeStats "AAPL" "739251d" 42 0.57 1234.56 0.0123
              (Some 1.4%float) new_year_2025)
  ∧ get_trade_stats ascii_upper ascii_int "aapl" "739252d" env_2025
    = Raise (HTTPException 400 "window must be like '7d' or '12h'")
  ∧ get_trade_stats ascii_upper ascii_int "aapl" "7D" env_2025
    = Raise (HTTPException 400 "window must be like '7d' or '12h'")
  ∧ get_trade_stats ascii_upper ascii_int "aapl" "d" env_2025
    = Raise (HTTPException 400 "window must be like '7d' or '12h'").
Proof. vm_compute. done. Qed.

(** ** The registry under [place_order] *)

Lemma filter_all {A : Type} (P : A → Prop) `{!∀ x, Decision (P x)}
    (l : list A) :
  Forall P l → filter P l = l.
Proof.
  induction 1 as [|x l Hx _ IH]; [done|].
  by rewrite filter_cons_True, IH.
Qed.

Lemma all_new_open (os : gmap string Order) :
  all_new os →
  (get_open_orders os).1 = Return (values os).
Proof.
  intros Hnew. unfold get_open_orders. simpl. f_equal.
  apply filter_all, Forall_forall.
  intros o [k Hk]%RegistryFacts.elem_of_values.
  destruct (Hnew k o Hk) as (-> & _). unfold open_statuses. set_solver.
Qed.

(** In a registry whose orders are stored under their identifiers, the
    loop of [place_order] finds what the dictionary holds under the
    key. *)
Lemma scan_lookup (os : gmap string Order) (c : string) :
  stored_under_id os → c ≠ "" →
  scan (Some c) (values os) = os !! c.
Proof.
  intros Hids Hc. destruct (os !! c) as [o|] eqn:Ho.
  - apply RegistryFacts.scan_unique.
    + apply RegistryFacts.truthy_Some. by exists c.
    + apply RegistryFacts.elem_of_values. by exists c.
    + by rewrite (Hids c o Ho).
    + intros x [k Hk]%RegistryFacts.elem_of_values [= Hx].
      rewrite (Hids k x Hk) in Hx. subst k. congruence.
  - apply RegistryFacts.scan_None. right.
    intros o [k Hk]%RegistryFacts.elem_of_values [= Hid].
    rewrite (Hids k o Hk) in Hid. congruence.
Qed.

Section WithBuiltins.

Variable str_upper : string → string.
Variable py_int : string → option Z.

(** The three ways [place_order] ends. *)
Lemma place_order_ends (req : OrderRequest) (env : Env)
    (os : gmap string Order) :
  (¬ passes_validation req
   ∧ place_order str_upper req env os
     = (Raise (HTTPException 400 "limit_price required for LIMIT orders"),
        os))
  ∨ (passes_validation req
     ∧ ∃ o, scan (req_client_order_id req) (values os) = Some o
            ∧ place_order str_upper req env os = (Return o, os))
  ∨ (passes_validation req
     ∧ scan (req_client_order_id req) (values os) = None
     ∧ ∃ o, id o = py_or (req_client_order_id req) (uuid4 env)
            ∧ status o = "NEW" ∧ filled_qty o = 0%float
            ∧ avg_fill_price o = None
            ∧ place_order str_upper req env os
              = (Return o, <[id o := o]> os)).
Proof.
  destruct (decide (req_order_type req = LIMIT
                    ∧ req_limit_price req = None)) as [[Ht Hp]|Hval].
  - left. split; [by intros Hval; apply Hval|].
    by apply RegistryFacts.place_order_rejected.
  - right. rewrite (RegistryFacts.place_order_passes _ req env os Hval).
    destruct (scan _ _) as [o|]; [left|right].
    + split; [done|]. by exists o.
    + split; [done|]. split; [done|].
      by exists (mkOrder (py_or (req_client_order_id req) (uuid4 env))
                  (str_upper (req_symbol req)) (req_side req) (req_qty req)
                  (req_order_type req) (req_limit_price req) (req_tif req)
                  "NEW" (utcnow env) None 0%float).
Qed.

Lemma place_order_keeps_ids (req : OrderRequest) (env : Env)
    (os : gmap string Order) :
  stored_under_id os → stored_under_id (place_order str_upper req env os).2.
Proof.
  intros Hids.
  destruct (place_order_ends req env os)
    as [[_ ->]|[(_ & o & _ & ->)|(_ & _ & o & _ & _ & _ & _ & ->)]];
    try done.
  intros k x. simpl. destruct (decide (id o = k)) as [<-|Hne].
  - rewrite lookup_insert_eq. by intros [= <-].
  - rewrite lookup_insert_ne by done. apply Hids.
Qed.

Lemma place_order_keeps_new (req : OrderRequest) (env : Env)
    (os : gmap string Order) :
  all_new os → all_new (place_order str_upper req env os).2.
Proof.
  intros Hnew.
  destruct (place_order_ends req env os)
    as [[_ ->]|[(_ & o & _ & ->)|(_ & _ & o & _ & ? & ? & ? & ->)]];
    try done.
  intros k x. simpl. destruct (decide (id o = k)) as [<-|Hne].
  - rewrite lookup_insert_eq. by intros [= <-].
  - rewrite lookup_insert_ne by done. apply Hnew.
Qed.

(** What a request does to the three parts of [STATE]. *)
Lemma handle_orders (c : api_call) (env : Env) (st : State) :
  orders (handle str_upper py_int c env st).2
  = match c with
    | PlaceOrder req => (place_order str_upper req env (orders st)).2
    | _ => orders st
    end.
Proof.
  destruct c as [| | |req|order_id|symbol window]; try done.
  simpl. unfold get_order. by destruct (orders st !! order_id).
Qed.

Lemma handle_positions (c : api_call) (env : Env) (st : State) :
  positions (handle str_upper py_int c env st).2 = positions st.
Proof. by destruct c. Qed.

Lemma handle_balance (c : api_call) (env : Env) (st : State) :
  let b := balance st in
  let b' := balance (handle str_upper py_int c env st).2 in
  currency b' = currency b ∧ cash b' = cash b ∧ equity b' = equity b
  ∧ buying_power b' = buying_power b.
Proof. by destruct c. Qed.

Lemma serve_keeps_registry (calls : list (api_call * Env)) (st : State) :
  stored_under_id (orders st) → all_new (orders st) →
  stored_under_id (orders (serve str_upper py_int calls st))
  ∧ all_new (orders (serve str_upper py_int calls st)).
Proof.
  revert st. induction calls as [|[c env] calls IH]; intros st Hids Hnew;
    simpl; [done|].
  apply IH; rewrite handle_orders; destruct c; try done.
  - by apply place_order_keeps_ids.
  - by apply place_order_keeps_new.
Qed.

Lemma serve_keeps_amounts (calls : list (api_call * Env)) (st : State) :
  let st' := serve str_upper py_int calls st in
  positions st' = positions st
  ∧ currency (balance st') = currency (balance st)
  ∧ cash (balance st') = cash (balance st)
  ∧ equity (balance st') = equity (balance st)
  ∧ buying_power (balance st') = buying_power (balance st).
Proof.
  revert st. induction calls as [|[c env] calls IH]; intros st; simpl;
    [done|].
  destruct (IH (handle str_upper py_int c env st).2)
    as (-> & -> & -> & -> & ->).
  rewrite handle_positions.
  by destruct (handle_balance c env st) as (-> & -> & -> & ->).
Qed.

(** X1. Whatever requests the API has served since the module was loaded,
    every order of the registry is stored under its own identifier and is as
    it was created: status NEW, nothing filled, no fill price. *)
Theorem serve_registry_invariant (calls : list (api_call * Env))
    (loaded : Z) :
  stored_under_id (orders (serve str_upper py_int calls (STATE loaded)))
  ∧ all_new (orders (serve str_upper py_int calls (STATE loaded))).
Proof.
  apply serve_keeps_registry; intros k o Hk; simpl in Hk;
    by rewrite lookup_empty in Hk.
Qed.

(** X2. Whatever requests the API has served, [get_open_orders] lists every
    order of the registry: no endpoint changes a status, so no order ever
    leaves the list of open orders. *)
Theorem serve_every_order_open (calls : list (api_call * Env))
    (loaded : Z) :
  (get_open_orders (orders (serve str_upper py_int calls (STATE loaded)))).1
  = Return (values (orders (serve str_upper py_int calls (STATE loaded)))).
Proof.
  apply all_new_open.
  apply serve_keeps_registry; intros k o Hk; simpl in Hk;
    by rewrite lookup_empty in Hk.
Qed.

(** X3. Whatever requests the API has served, orders placed included, the
    balance endpoint reports the amounts [STATE] was built with (with the
    time of the call) and the positions endpoint the two positions [STATE]
    was built with. *)
Theorem serve_keeps_balance_and_positions (calls : list (api_call * Env))
    (loaded : Z) (env : Env) :
  (get_balance env (serve str_upper py_int calls (STATE loaded))).1
  = Return (mkAccountBalance "USD" 100001 100000 200000 (utcnow env))
  ∧ (get_open_positions (serve str_upper py_int calls (STATE loaded))).1
    = Return [ mkPosition "AAPL" 50 190 "LONG";
               mkPosition "TSLA" 10 240 "SHORT" ].
Proof.
  destruct (serve_keeps_amounts calls (STATE loaded))
    as (Hpos & Hcur & Hcash & Heq & Hbp).
  unfold get_balance, get_open_positions. simpl.
  by rewrite Hpos, Hcur, Hcash, Heq, Hbp.
Qed.

(** X4. In a registry whose orders are stored under their identifiers,
    [place_order] with a non-empty key works as a lookup of the key: an
    order stored under the key is returned as it is, whatever the other
    fields of the request say, and the registry stays as it is; without one,
    a new order is stored under the key and the registry has one entry more. *)
Theorem place_order_by_key (req : OrderRequest) (c : string) (env : Env)
    (os : gmap string Order) :
  stored_under_id os → req_client_order_id req = Some c → c ≠ "" →
  passes_validation req →
  match os !! c with
  | Some o => place_order str_upper req env os = (Return o, os)
  | None =>
      ∃ o, place_order str_upper req env os = (Return o, <[c := o]> os)
           ∧ id o = c ∧ symbol o = str_upper (req_symbol req)
           ∧ size (<[c := o]> os) = S (size os)
  end.
Proof.
  intros Hids Hc Hne Hval.
  rewrite (RegistryFacts.place_order_passes _ req env os Hval).
  rewrite Hc, (scan_lookup os c Hids Hne).
  destruct (os !! c) as [o|] eqn:Ho; [done|].
  cbn zeta. rewrite (RegistryFacts.py_or_truthy c _ Hne). cbn [id].
  eexists. split; [reflexivity|]. split; [done|]. split; [done|].
  by apply map_size_insert_None.
Qed.

(** X5. After [place_order] has returned an order, in a registry kept as the
    API keeps it, [get_order] finds that order under its identifier and
    [get_open_orders] lists it. *)
Theorem place_order_then_get_order (req : OrderRequest) (env : Env)
    (os : gmap string Order) :
  stored_under_id os → all_new os → passes_validation req →
  ∃ o os' l,
    place_order str_upper req env os = (Return o, os')
    ∧ get_order (id o) os' = (Return o, os')
    ∧ get_open_orders os' = (Return l, os') ∧ o ∈ l.
Proof.
  intros Hids Hnew Hval.
  pose proof (place_order_keeps_ids req env os Hids) as Hids'.
  pose proof (place_order_keeps_new req env os Hnew) as Hnew'.
  assert (∃ o, place_order str_upper req env os
               = (Return o, (place_order str_upper req env os).2)
               ∧ ∃ k, (place_order str_upper req env os).2 !! k = Some o)
    as (o & Hplace & k & Hk).
  { destruct (place_order_ends req env os)
      as [[? _]|[(_ & o & Hs & ->)|(_ & _ & o & _ & _ & _ & _ & ->)]];
      [done| |].
    - exists o. split; [done|].
      by apply RegistryFacts.scan_Some in Hs
        as [?%RegistryFacts.elem_of_values _].
    - exists o. split; [done|]. exists (id o). simpl.
      by rewrite lookup_insert_eq. }
  rewrite Hplace.
  set (os' := (place_order str_upper req env os).2) in *.
  exists o, os', (values os'). split; [done|]. split_and!.
  - unfold get_order. by rewrite (Hids' k o Hk), Hk.
  - pose proof (all_new_open os' Hnew') as Hopen.
    unfold get_open_orders in *. simpl in *. by injection Hopen as ->.
  - apply RegistryFacts.elem_of_values. by exists k.
Qed.

(** X6. [place_order] never takes an identifier out of the registry, and it
    adds at most one. *)
Theorem place_order_grows (req : OrderRequest) (env : Env)
    (os : gmap string Order) :
  (∀ k, is_Some (os !! k) →
        is_Some ((place_order str_upper req env os).2 !! k))
  ∧ size os ≤ size (place_order str_upper req env os).2 ≤ S (size os).
Proof.
  destruct (place_order_ends req env os)
    as [[_ ->]|[(_ & o & _ & ->)|(_ & _ & o & _ & _ & _ & _ & ->)]];
    simpl; [split; [done|lia]..|].
  split.
  - intros k Hk. apply lookup_insert_is_Some'. by right.
  - destruct (os !! id o) eqn:Hold.
    + rewrite map_size_insert_Some by (by eexists). lia.
    + rewrite map_size_insert_None by done. lia.
Qed.

(** X7. In a registry whose orders are stored under their identifiers, every
    stored order survives [place_order] as it is, provided the request
    carries a non-empty key or the generated UUID is not yet an identifier
    of the registry. *)
Theorem place_order_preserves (req : OrderRequest) (env : Env)
    (os : gmap string Order) :
  stored_under_id os →
  truthy (req_client_order_id req) = true ∨ os !! uuid4 env = None →
  os ⊆ (place_order str_upper req env os).2.
Proof.
  intros Hids Hfresh.
  destruct (place_order_ends req env os)
    as [[_ ->]|[(_ & o & _ & ->)|(_ & Hs & o & Hid & _ & _ & _ & ->)]];
    simpl; [done..|].
  apply insert_subseteq. rewrite Hid.
  destruct (truthy (req_client_order_id req)) eqn:Ht.
  - apply RegistryFacts.truthy_Some in Ht as (c & Hc & Hne).
    rewrite Hc in *. rewrite (RegistryFacts.py_or_truthy c _ Hne).
    by rewrite <- (scan_lookup os c Hids Hne).
  - rewrite (RegistryFacts.py_or_falsy _ _ Ht).
    by destruct Hfresh.
Qed.

(** X8. The generated UUID is not checked against the registry: when a
    request without (non-empty) key draws a UUID that is an identifier of
    the registry already, the new order takes the place of the stored one. *)
Theorem place_order_uuid_collision (req : OrderRequest) (env : Env)
    (os : gmap string Order) (old : Order) :
  truthy (req_client_order_id req) = false → passes_validation req →
  os !! uuid4 env = Some old →
  ∃ o, place_order str_upper req env os
       = (Return o, <[uuid4 env := o]> os)
       ∧ id o = uuid4 env ∧ created_at o = utcnow env
       ∧ symbol o = str_upper (req_symbol req)
       ∧ get_order (uuid4 env) (<[uuid4 env := o]> os)
         = (Return o, <[uuid4 env := o]> os)
       ∧ size (<[uuid4 env := o]> os) = size os.
Proof.
  intros Ht Hval Hold.
  rewrite (RegistryFacts.place_order_passes _ req env os Hval).
  assert (scan (req_client_order_id req) (values os) = None) as ->
    by (apply RegistryFacts.scan_None; by left).
  cbn zeta. rewrite (RegistryFacts.py_or_falsy _ _ Ht). cbn [id].
  eexists. split; [reflexivity|]. split_and!; try done.
  - unfold get_order. by rewrite lookup_insert_eq.
  - apply map_size_insert_Some. by exists old.
Qed.

End WithBuiltins.

Lemma stored_under_id_empty : stored_under_id ∅.
Proof. intros k o Hk. by rewrite lookup_empty in Hk. Qed.

Lemma all_new_empty : all_new ∅.
Proof. intros k o Hk. by rewrite lookup_empty in Hk. Qed.

(** A second request under the key [k-1], for another symbol, on the
    registry that holds the first: the first order comes back. *)
Lemma place_order_by_key_witness :
  match one_order !! "k-1" with
  | Some o =>
      place_order ascii_upper req_same_key env2 one_order
      = (Return o, one_order)
  | None =>
      ∃ o, place_order ascii_upper req_same_key env2 one_order
           = (Return o, <["k-1" := o]> one_order)
           ∧ id o = "k-1"
           ∧ symbol o = ascii_upper (req_symbol req_same_key)
           ∧ size (<["k-1" := o]> one_order) = S (size one_order)
  end.
Proof.
  apply (place_order_by_key ascii_upper req_same_key "k-1" env2 one_order).
  - apply place_order_keeps_ids, stored_under_id_empty.
  - reflexivity.
  - discriminate.
  - intros [Ht _]. discriminate Ht.
Defined.

Example place_order_same_key :
  (place_order ascii_upper req_same_key env2 one_order).1
  = Return (mkOrder "k-1" "AAPL" BUY 10 LIMIT (Some 150%float) DAY "NEW"
              1000 None 0).
Proof. vm_compute. reflexivity. Qed.

(** A keyless order placed on the registry that holds the order [k-1]:
    it is found under its UUID and listed as open. *)
Lemma place_order_then_get_order_witness :
  ∃ o os' l,
    place_order ascii_upper req_no_key env2 one_order = (Return o, os')
    ∧ get_order (id o) os' = (Return o, os')
    ∧ get_open_orders os' = (Return l, os') ∧ o ∈ l.
Proof.
  apply (place_order_then_get_order ascii_upper req_no_key env2 one_order).
  - apply place_order_keeps_ids, stored_under_id_empty.
  - apply place_order_keeps_new, all_new_empty.
  - intros [Ht _]. discriminate Ht.
Defined.

(** The same placement keeps the order [k-1]: the UUID drawn is not an
    identifier of the registry. *)
Lemma place_order_preserves_witness :
  one_order ⊆ (place_order ascii_upper req_no_key env2 one_order).2.
Proof.
  apply (place_order_preserves ascii_upper req_no_key env2 one_order).
  - apply place_order_keeps_ids, stored_under_id_empty.
  - right. vm_compute. reflexivity.
Defined.

(** The request with the empty key drawing the UUID under which the
    keyless order is stored. *)
Lemma place_order_uuid_collision_witness :
  ∃ o, place_order ascii_upper req_empty_key env1 keyless_order
       = (Return o, <[uuid4 env1 := o]> keyless_order)
       ∧ id o = uuid4 env1 ∧ created_at o = utcnow env1
       ∧ symbol o = ascii_upper (req_symbol req_empty_key)
       ∧ get_order (uuid4 env1) (<[uuid4 env1 := o]> keyless_order)
         = (Return o, <[uuid4 env1 := o]> keyless_order)
       ∧ size (<[uuid4 env1 := o]> keyless_order) = size keyless_order.
Proof.
  eapply (place_order_uuid_collision ascii_upper req_empty_key env1
            keyless_order).
  - reflexivity.
  - intros [Ht _]. discriminate Ht.
  - vm_compute. reflexivity.
Defined.

(** The sample session leaves two orders, both listed as open, and the
    balance and the positions as they were. *)
Example session_end :
  let st := serve ascii_upper ascii_int session (STATE 0) in
  size (orders st) = 2
  ∧ (get_open_orders (orders st)).1 = Return (values (orders st))
  ∧ (get_order "k-1" (orders st)).1
    = Return (mkOrder "k-1" "AAPL" BUY 10 LIMIT (Some 150%float) DAY "NEW"
                1000 None 0)
  ∧ cash (balance st) = 100001%float
  ∧ timestamp (balance st) = 1000%Z.
Proof. vm_compute. done. Qed.

End ApiFacts.

(** * More on the odds calculator *)

Module StatCalculationsMore.
Import StatCalculations Samples StatCalculationsFacts.

(** A float that compares equal to zero is [0.0] or [-0.0]: it is not
    above zero, and its absolute value compares equal to zero. *)
Lemma zero_not_positive (a : float) :
  (a =? 0)%float = true → (0 <? a)%float = false.
Proof.
  rewrite FloatAxioms.eqb_spec, FloatAxioms.ltb_spec.
  change (Prim2SF 0) with (S754_zero false).
  by destruct (Prim2SF a) as [s|[]| |[] m e].
Qed.

Lemma zero_abs (a : float) :
  (a =? 0)%float = true → (abs a =? 0)%float = true.
Proof.
  rewrite !FloatAxioms.eqb_spec, FloatAxioms.abs_spec.
  change (Prim2SF 0) with (S754_zero false).
  by destruct (Prim2SF a) as [s|[]| |[] m e].
Qed.

Lemma american_to_decimal_zero (a : float) (self : gmap string float) :
  (a =? 0)%float = true →
  american_to_decimal a self = (Raise ZeroDivisionError, self).
Proof.
  intros Ha. unfold american_to_decimal.
  rewrite (zero_not_positive a Ha). method_step.
  unfold PyFloat.truediv. by rewrite (zero_abs a Ha).
Qed.

Lemma american_to_decimal_nonzero (a : float) (self : gmap string float) :
  (a =? 0)%float = false →
  american_to_decimal a self
  = (Return (if (0 <? a)%float then (1 + a / 100)%float
             else (1 + 100 / abs a)%float), self).
Proof.
  intros Ha. unfold american_to_decimal.
  destruct (0 <? a)%float; method_step.
  - reflexivity.
  - by rewrite truediv_nonzero by by apply FloatFacts.abs_nonzero.
Qed.

Lemma american_to_net_cases (a : float) (self : gmap string float) :
  american_to_net a self
  = (if (a =? 0)%float then Raise ZeroDivisionError
     else Return ((if (0 <? a)%float then 1 + a / 100
                   else 1 + 100 / abs a) - 1)%float, self).
Proof.
  unfold american_to_net. method_step.
  destruct (a =? 0)%float eqn:Ha.
  - by rewrite american_to_decimal_zero.
  - by rewrite american_to_decimal_nonzero.
Qed.

(** X11. [american_to_decimal] and [american_to_net] raise
    [ZeroDivisionError] exactly for odds that compare equal to zero ([0.0]
    and [-0.0]); for all other odds, NaN and the infinities included, they
    return [1 + a/100] for [a > 0] and [1 + 100/|a|] otherwise (less 1 for
    the net odds). They read and write no attribute. *)
Theorem american_odds_outcome (a : float) (self : gmap string float) :
  let decimal := if (0 <? a)%float then (1 + a / 100)%float
                 else (1 + 100 / abs a)%float in
  american_to_decimal a self
  = (if (a =? 0)%float then Raise ZeroDivisionError else Return decimal,
     self)
  ∧ american_to_net a self
    = (if (a =? 0)%float then Raise ZeroDivisionError
       else Return (decimal - 1)%float, self).
Proof.
  intros decimal. subst decimal. rewrite american_to_net_cases.
  destruct (a =? 0)%float eqn:Ha.
  - by rewrite american_to_decimal_zero.
  - by rewrite american_to_decimal_nonzero.
Qed.

(** X12. [expected_value] raises [ZeroDivisionError] for odds that compare
    equal to zero and then writes nothing; otherwise it returns
    [prob*b*stake - (1-prob)*stake] for the net odds [b] and stores it under
    [__expected_value], which is not the attribute [__expectedValue] that
    [__init__] reads. *)
Theorem expected_value_outcome (prob odds stake : float)
    (self : gmap string float) :
  let b := ((if (0 <? odds)%float then 1 + odds / 100
             else 1 + 100 / abs odds) - 1)%float in
  let ev := (prob * b * stake - (1 - prob) * stake)%float in
  expected_value prob odds stake self
  = (if (odds =? 0)%float then (Raise ZeroDivisionError, self)
     else (Return ev, <["_StatCalculations__expected_value" := ev]> self))
  ∧ (expected_value prob odds stake self).2
      !! "_StatCalculations__expectedValue"
    = self !! "_StatCalculations__expectedValue".
Proof.
  intros b ev. subst b ev. unfold expected_value. method_step.
  rewrite american_to_net_cases.
  destruct (odds =? 0)%float; simpl; [done|].
  split; [done|]. by rewrite lookup_insert_ne.
Qed.

Lemma kelly_cases (self : gmap string float) (q a : float) :
  self !! currentOdds_ = Some q → self !! americanOdds_ = Some a →
  let n := ((if (0 <? a)%float then 1 + a / 100
             else 1 + 100 / abs a) - 1)%float in
  let bet := PyFloat.max 0 ((n * q - (1 - q)) / n) in
  kelly_criterion self
  = if (a =? 0)%float || (n =? 0)%float
    then (Raise ZeroDivisionError, self)
    else (Return bet, <[optimalBetSize_ := bet]> self).
Proof.
  intros Hq Ha n bet. subst n bet. unfold kelly_criterion. method_step.
  rewrite Hq, Ha, american_to_net_cases.
  destruct (a =? 0)%float; simpl; [done|].
  unfold PyFloat.truediv. by destruct (_ =? 0)%float.
Qed.

(** X13. All the ways [kelly_criterion] ends. It raises [AttributeError]
    when [__currentOdds] or [__americanOdds] is missing, [ZeroDivisionError]
    exactly when the stored odds or their net odds compare equal to zero,
    and in each of these cases leaves the instance as it was; otherwise it
    returns the floored Kelly fraction and writes [__optimalBetSize] alone. *)
Theorem kelly_criterion_outcome (self : gmap string float) :
  (self !! currentOdds_ = None →
   kelly_criterion self = (Raise (AttributeError currentOdds_), self))
  ∧ (∀ q, self !! currentOdds_ = Some q → self !! americanOdds_ = None →
       kelly_criterion self = (Raise (AttributeError americanOdds_), self))
  ∧ (∀ q a, self !! currentOdds_ = Some q →
       self !! americanOdds_ = Some a →
       let n := ((if (0 <? a)%float then 1 + a / 100
                  else 1 + 100 / abs a) - 1)%float in
       let bet := PyFloat.max 0 ((n * q - (1 - q)) / n) in
       kelly_criterion self
       = if (a =? 0)%float || (n =? 0)%float
         then (Raise ZeroDivisionError, self)
         else (Return bet, <[optimalBetSize_ := bet]> self)).
Proof.
  split_and!.
  - intros Hq. unfold kelly_criterion. method_step. by rewrite Hq.
  - intros q Hq Ha. unfold kelly_criterion. method_step. by rewrite Hq, Ha.
  - intros q a Hq Ha. by apply kelly_cases.
Qed.

(** Positive odds so small that [1 + a/100] rounds to 1 have net odds
    zero: [kelly_criterion] raises although the odds are not zero. *)
Example kelly_tiny_odds :
  kelly_criterion (<[americanOdds_ := 1e-20%float]> (half_built 0.6))
  = (Raise ZeroDivisionError,
     <[americanOdds_ := 1e-20%float]> (half_built 0.6)).
Proof.
  rewrite (kelly_cases _ 0.6 1e-20) by reflexivity. reflexivity.
Qed.




Lemma conversion_returns (self : gmap string float) (p : float) :
  (0 <? p)%float = true → (p <? 1)%float = true →
  let a := if (p <? 0.5)%float then (100 / p - 100)%float
           else ((- (100 * p)) / (1 - p))%float in
  implied_probability_to_american p self
  = (Return a, <[americanOdds_ := a]> self).
Proof.
  intros Hpos Hlt a. subst a. unfold implied_probability_to_american.
  destruct (p <? 0.5)%float eqn:Hhalf; method_step.
  - by rewrite truediv_nonzero by by apply FloatFacts.positive_nonzero.
  - by rewrite truediv_nonzero by by apply FloatFacts.one_minus_nonzero.
Qed.

(** X15. The conversion of a probability [p] followed by [kelly_criterion],
    on an instance whose [__currentOdds] is [q]: the Kelly call finds the
    odds just stored and does not raise [AttributeError]; its stake is
    computed from the net odds of [p] and from [q], the probability given at
    construction, not from [p]. *)
Theorem conversion_then_kelly (self : gmap string float) (p q : float) :
  self !! currentOdds_ = Some q →
  (0 <? p)%float = true → (p <? 1)%float = true →
  let a := if (p <? 0.5)%float then (100 / p - 100)%float
           else ((- (100 * p)) / (1 - p))%float in
  let n := ((if (0 <? a)%float then 1 + a / 100
             else 1 + 100 / abs a) - 1)%float in
  let bet := PyFloat.max 0 ((n * q - (1 - q)) / n) in
  let self1 := <[americanOdds_ := a]> self in
  implied_probability_to_american p self = (Return a, self1)
  ∧ kelly_criterion self1
    = if (a =? 0)%float || (n =? 0)%float
      then (Raise ZeroDivisionError, self1)
      else (Return bet, <[optimalBetSize_ := bet]> self1).
Proof.
  intros Hq Hpos Hlt a n bet self1.
  split; [by apply conversion_returns|].
  apply kelly_cases.
  - unfold self1. by rewrite lookup_insert_ne.
  - unfold self1. by rewrite lookup_insert_eq.
Qed.

(** The conversion of 0.25 and then the Kelly stake at the probability
    0.6 of construction: odds 300.0, net odds 3.0, stake near 0.4667. *)
Lemma conversion_then_kelly_witness :
  let a := if (0.25 <? 0.5)%float then (100 / 0.25 - 100)%float
           else ((- (100 * 0.25)) / (1 - 0.25))%float in
  let n := ((if (0 <? a)%float then 1 + a / 100
             else 1 + 100 / abs a) - 1)%float in
  let bet := PyFloat.max 0 ((n * 0.6 - (1 - 0.6)) / n) in
  let self1 := <[americanOdds_ := a]> (half_built 0.6) in
  implied_probability_to_american 0.25 (half_built 0.6) = (Return a, self1)
  ∧ kelly_criterion self1
    = if (a =? 0)%float || (n =? 0)%float
      then (Raise ZeroDivisionError, self1)
      else (Return bet, <[optimalBetSize_ := bet]> self1).
Proof.
  apply (conversion_then_kelly (half_built 0.6) 0.25 0.6); reflexivity.
Defined.

Example conversion_then_kelly_value :
  (kelly_criterion
     (implied_probability_to_american 0.25 (half_built 0.6)).2).1
  = Return 0.46666666666666662%float.
Proof. vm_compute. reflexivity. Qed.

End StatCalculationsMore.
